(** * robottelo issue handlers: a shallow embedding and its properties

    The development follows two source files of the repository:

    - [robottelo/utils/issue_handlers/jira.py]   (module [Jira] below)
    - [pytest_plugins/issue_handlers.py]         (module [Plugin] below)

    The definitions come first; their properties follow in [JiraFacts],
    [PluginFacts] and [CacheFacts].

    Python objects are modelled the way the interpreter has them: a dict is an
    object in a store and is passed around by reference, an exception is an
    outcome of its own, and every handler threads the process-wide state
    ([CACHED_RESPONSES], [pytest.issue_data], the tracker) explicitly. *)

From stdpp Require Import gmap strings list sorting.
From Stdlib Require Import NArith Lia.

Local Open Scope string_scope.
Set Warnings "-register-all".

(** ** Python values and outcomes *)
Module Py.

(** The exception classes the handlers can end in. *)
Inductive exn : Set :=
  | TypeError | ValueError | KeyError | AttributeError | IndexError
  | RecursionError
  | RequestException   (* requests: connection failure or raise_for_status *)
  | RetryError.        (* tenacity: the attempts are used up *)

Inductive result (A : Type) : Type :=
  | Ok (a : A)
  | Raise (e : exn).
Arguments Ok {A} a.
Arguments Raise {A} e.

Definition rbind {A B} (r : result A) (k : A -> result B) : result B :=
  match r with
  | Ok a => k a
  | Raise e => Raise e
  end.

Definition raises {A} (r : result A) : Prop := exists e, r = Raise e.

(** [packaging.version.Version], restricted to release-only versions
    ("6.10", "6.11.0", "0"): the tuple of release segments. *)
Definition Version : Set := list N.

(** The comparison key drops trailing zero segments, so that
    [Version("6.0") == Version("6")]. *)
Fixpoint strip0 (l : list N) : list N :=
  match l with
  | [] => []
  | x :: r =>
      match strip0 r with
      | [] => if N.eqb x 0 then [] else [x]
      | r' => x :: r'
      end
  end.

(** Python's tuple order: the first differing segment decides, a proper
    prefix is smaller. *)
Fixpoint tuple_ltb (a b : list N) : bool :=
  match a, b with
  | _, [] => false
  | [], _ :: _ => true
  | x :: a', y :: b' =>
      if N.ltb x y then true
      else if N.ltb y x then false
      else tuple_ltb a' b'
  end.

Definition version_lt (a b : Version) : bool :=
  tuple_ltb (strip0 a) (strip0 b).

(** Objects are identified by their address in the store. *)
Definition addr : Set := nat.

Inductive value : Type :=
  | VNone
  | VBool (b : bool)
  | VStr (s : string)
  | VVersion (v : Version)
  | VList (l : list value)
  | VRef (a : addr).          (* a dict, by reference *)

Abbreviation dict := (gmap string value).
Abbreviation store := (gmap addr (gmap string value)).

(** The dict at an address (an address outside the store reads as [{}]). *)
Definition deref (h : store) (a : addr) : dict := default ∅ (h !! a).

Definition dict_is_empty (d : dict) : bool := bool_decide (d = ∅).

(** [bool(v)].  A [Version] defines neither [__bool__] nor [__len__], so it
    is true like any plain object. *)
Definition truthy (h : store) (v : value) : bool :=
  match v with
  | VNone => false
  | VBool b => b
  | VStr s => negb (String.eqb s "")
  | VVersion _ => true
  | VList l => match l with [] => false | _ :: _ => true end
  | VRef a => negb (dict_is_empty (deref h a))
  end.

(** [v is not None] *)
Definition is_not_none (v : value) : bool :=
  match v with VNone => false | _ => true end.

(** [jr.get(key)]: only dicts have the method. *)
Definition py_get (h : store) (jr : value) (key : string) : result value :=
  match jr with
  | VRef a => Ok (default VNone (deref h a !! key))
  | _ => Raise AttributeError
  end.

(** [jr[key]]: a missing key is a [KeyError]. *)
Definition py_getitem (h : store) (jr : value) (key : string) : result value :=
  match jr with
  | VRef a =>
      match deref h a !! key with
      | Some v => Ok v
      | None => Raise KeyError
      end
  | _ => Raise TypeError
  end.

(** [v == s] for a string [s] *)
Definition eq_str (v : value) (s : string) : bool :=
  match v with
  | VStr x => String.eqb x s
  | _ => false
  end.

(** [str(v)] as an f-string formats it, for the values a tracker record holds
    as a number: a string, or [None]. *)
Definition format (v : value) : string :=
  match v with
  | VStr s => s
  | _ => "None"
  end.

(** [v in (s1, s2, ...)]: membership in a tuple of strings compares with
    [==], which is false for every non-string and never raises. *)
Definition in_tuple (v : value) (t : list string) : bool :=
  match v with
  | VStr s => existsb (String.eqb s) t
  | _ => false
  end.

(** [x in s] for a string [s] is the substring test. *)
Fixpoint substring_of (x s : string) : bool :=
  String.prefix x s ||
  match s with
  | EmptyString => false
  | String _ s' => substring_of x s'
  end.

(** [v in s] where [s] is a [str]: the left operand must be a string. *)
Definition in_str (v : value) (s : string) : result bool :=
  match v with
  | VStr x => Ok (substring_of x s)
  | _ => Raise TypeError
  end.

Definition as_version (v : value) : option Version :=
  match v with VVersion x => Some x | _ => None end.

(** [min] keeps the first of several minimal elements. *)
Definition min2 (m x : Version) : Version := if version_lt x m then x else m.

(** [min(v)] where the result is next compared with a [Version]
    ([Version < min(v)]): with an element that is no [Version] the
    expression ends in [TypeError], raised by [min] or by [<]; an empty
    sequence is a [ValueError], a value that cannot be iterated a
    [TypeError]. *)
Definition min_version (h : store) (v : value) : result Version :=
  match v with
  | VList [] => Raise ValueError
  | VList l =>
      match mapM as_version l with
      | Some (x :: xs) => Ok (fold_left min2 xs x)
      | _ => Raise TypeError
      end
  | VStr s => if String.eqb s "" then Raise ValueError else Raise TypeError
  | VRef a => if dict_is_empty (deref h a) then Raise ValueError else Raise TypeError
  | _ => Raise TypeError
  end.

(** [str(issue).partition(':')[-1]]: what follows the first colon, the empty
    string when there is none. *)
Fixpoint after_colon (s : string) : string :=
  match s with
  | EmptyString => EmptyString
  | String c s' => if String.eqb (String c "") ":" then s' else after_colon s'
  end.

End Py.

(** ** [robottelo/utils/issue_handlers/jira.py] *)
Module Jira.
Import Py.

Definition OPEN_STATUSES : list string :=
  ["New"; "Backlog"; "Refinement"; "To Do"; "In Progress"; "Review"].
Definition CLOSED_STATUSES : list string := ["Release Pending"; "Closed"].
(** A plain string in the source, not a tuple: [x in WONTFIX_RESOLUTIONS] is
    a substring test. *)
Definition WONTFIX_RESOLUTIONS : string := "Obsolete".

(** [cached_data], the content of a cache file: issue key to the ['data'] of
    its item, in file order ([None] for an item without ['data'], such as
    ["_meta"]). *)
Definition cache : Type := list (string * option value).

Definition cache_lookup (c : cache) (key : string) : option (option value) :=
  snd <$> find (fun kv => String.eqb (fst kv) key) c.

(** The process-wide state the handlers read and write. *)
Record world : Type := World {
  heap : store;                            (* every dict object *)
  next : addr;                             (* the next free address *)
  issue_data : option (gmap string addr);  (* pytest.issue_data: key to its 'data' dict *)
  get_data_memo : gmap (list string) value;  (* CACHED_RESPONSES['get_data'] *)
  get_single_memo : gmap string value;       (* CACHED_RESPONSES['get_single'] *)
  requests_sent : nat;                     (* calls of requests.get so far *)
  seconds_slept : nat                      (* waits of the retry policy so far *)
}.

Definition M (A : Type) : Type := world -> result A * world.

Definition ret {A} (a : A) : M A := fun w => (Ok a, w).
Definition throw {A} (e : exn) : M A := fun w => (Raise e, w).
Definition bind {A B} (m : M A) (k : A -> M B) : M B :=
  fun w =>
    match m w with
    | (Ok a, w') => k a w'
    | (Raise e, w') => (Raise e, w')
    end.
(** A computation that only reads the store. *)
Definition reading {A} (f : store -> result A) : M A :=
  fun w => (f (heap w), w).

Notation "'let*' x ':=' m 'in' k" := (bind m (fun x => k))
  (at level 10, x name, m at level 100, k at level 200, only parsing).

(** [try: m  except (classes): handler] *)
Definition try_except {A} (m : M A) (caught : exn -> bool) (handler : M A) : M A :=
  fun w =>
    match m w with
    | (Raise e, w') => if caught e then handler w' else (Raise e, w')
    | r => r
    end.

(** A new dict object. *)
Definition alloc (d : dict) : M value :=
  fun w =>
    (Ok (VRef (next w)),
     World (<[next w := d]> (heap w)) (S (next w)) (issue_data w)
           (get_data_memo w) (get_single_memo w) (requests_sent w) (seconds_slept w)).

Definition sleep (seconds : nat) : M unit :=
  fun w =>
    (Ok tt,
     World (heap w) (next w) (issue_data w) (get_data_memo w) (get_single_memo w)
           (requests_sent w) (seconds_slept w + seconds)).

Fixpoint alloc_all (ds : list dict) : M (list value) :=
  match ds with
  | [] => ret []
  | d :: rest =>
      let* r := alloc d in
      let* rs := alloc_all rest in
      ret (r :: rs)
  end.

(** [tenacity.retry(stop=stop_after_attempt(n), wait=wait_fixed(s))]: the
    body runs again after every exception, with a wait of [s] seconds in
    between; when attempt [n] fails too, [RetryError] is raised. *)
Fixpoint retry_loop {A} (attempts_left : nat) (wait_fixed : nat) (body : M A) : M A :=
  match attempts_left with
  | 0 => throw RetryError
  | S n =>
      fun w =>
        match body w with
        | (Ok a, w') => (Ok a, w')
        | (Raise _, w') =>
            match n with
            | 0 => (Raise RetryError, w')
            | S _ => retry_loop n wait_fixed body (snd (sleep wait_fixed w'))
            end
        end
  end.

Definition retry {A} (stop_after_attempt wait_fixed : nat) (body : M A) : M A :=
  retry_loop stop_after_attempt wait_fixed body.

(** [get_default_jr] *)
Definition default_jr (number : string) : dict :=
  <["id" := VStr number]>
  (<["is_open" := VBool true]>
  (<["is_deselected" := VBool false]>
  (<["status" := VStr ""]>
  (<["resolution" := VStr ""]>
  (<["clone_ids" := VList []]>
  (<["cf_clone_of" := VStr ""]>
  (<["error" := VStr "missing jira api_key"]> ∅))))))).

Definition get_default_jr (number : string) : M value := alloc (default_jr number).

(** [follow_duplicates]; [frames] is the call depth the interpreter still
    allows ([RecursionError] beyond it). *)
Fixpoint follow_duplicates (frames : nat) (h : store) (jr : value) : result value :=
  match frames with
  | 0 => Raise RecursionError
  | S frames' =>
      match py_get h jr "dupe_data" with
      | Raise e => Raise e
      | Ok dupe_data =>
          if truthy h dupe_data
          then follow_duplicates frames' h dupe_data
          else Ok jr
      end
  end.

(** [jr[key] = v] *)
Definition setitem (jr : value) (key : string) (v : value) : M unit :=
  fun w =>
    match jr with
    | VRef a =>
        (Ok tt,
         World (<[a := <[key := v]> (deref (heap w) a)]> (heap w)) (next w) (issue_data w)
               (get_data_memo w) (get_single_memo w) (requests_sent w) (seconds_slept w))
    | _ => (Raise TypeError, w)
    end.

(** An entry of [collected_data]: its ['data'] and whether it was added as a
    duplicate (the usage records are left out). *)
Record entry : Type := Entry { e_data : value; e_is_dupe : bool }.

(** [collected_data], in insertion order. *)
Definition collected : Type := list (string * entry).

Definition has_key (c : collected) (key : string) : bool :=
  existsb (fun kv => String.eqb (fst kv) key) c.

(** [collected_data[key]['data'] = data] on the [defaultdict]: a missing
    entry is created. *)
Definition set_entry_data (c : collected) (key : string) (data : value) : collected :=
  if has_key c key
  then (fun kv => if String.eqb (fst kv) key
                  then (fst kv, Entry data (e_is_dupe (snd kv))) else kv) <$> c
  else (c ++ [(key, Entry data false)])%list.

(** The values a [for] loop draws from [v]. *)
Definition iterate (h : store) (v : value) : result (list value) :=
  match v with
  | VList l => Ok l
  | VStr s => Ok ((fun c => VStr (String c EmptyString)) <$> String.list_ascii_of_string s)
  | VRef a => Ok (VStr <$> (fst <$> map_to_list (deref h a)))
  | _ => Raise TypeError
  end.

(** [sorted(jr_numbers)], the key of [CACHED_RESPONSES['get_data']]. *)
Definition str_le (x y : string) : Prop := String.leb x y = true.
#[local] Instance str_le_dec x y : Decision (str_le x y).
Proof. unfold str_le. apply _. Defined.
Definition sorted (l : list string) : list string := merge_sort str_le l.

(** [x[0]] *)
Definition index0 (v : value) : result value :=
  match v with
  | VList (x :: _) => Ok x
  | VList [] => Raise IndexError
  | VStr (String c _) => Ok (VStr (String c ""))
  | VStr EmptyString => Raise IndexError
  | VRef _ => Raise KeyError
  | _ => Raise TypeError
  end.

Section Handlers.
(** [get_sat_version()] (robottelo.hosts) *)
Variable sat_version : Version.
(** whether [settings.jira.api_key] is set *)
Variable api_key : bool.
(** the tracker: the outcome of the k-th [requests.get] for the given
    numbers -- an exception, or the ['bugs'] of the reply (if any) *)
Variable tracker : nat -> list string -> result (option (list dict)).
(** call depth left to [follow_duplicates] *)
Variable frames : nat.

Definition memo_get_data (key : list string) (data : value) : M unit :=
  fun w =>
    (Ok tt,
     World (heap w) (next w) (issue_data w) (<[key := data]> (get_data_memo w))
           (get_single_memo w) (requests_sent w) (seconds_slept w)).

Definition memo_get_single (number : string) (data : value) : M unit :=
  fun w =>
    (Ok tt,
     World (heap w) (next w) (issue_data w) (get_data_memo w)
           (<[number := data]> (get_single_memo w)) (requests_sent w) (seconds_slept w)).

(** [requests.get(...)], [raise_for_status()], [response.json().get('bugs')] *)
Definition requests_get (jr_numbers : list string) : M value :=
  fun w =>
    let w1 := World (heap w) (next w) (issue_data w) (get_data_memo w)
                    (get_single_memo w) (S (requests_sent w)) (seconds_slept w) in
    match tracker (requests_sent w) jr_numbers with
    | Raise e => (Raise e, w1)
    | Ok None => (Ok VNone, w1)
    | Ok (Some bugs) =>
        match alloc_all bugs w1 with
        | (Ok refs, w2) => (Ok (VList refs), w2)
        | (Raise e, w2) => (Raise e, w2)
        end
    end.

(** The body of [get_data_jr], one attempt. *)
Definition get_data_jr_body (jr_numbers : list string) (cached_data : option cache)
  : M value :=
  match jr_numbers with
  | [] => ret (VList [])
  | _ :: _ =>
      fun w =>
        let cached_by_call := default VNone (get_data_memo w !! sorted jr_numbers) in
        if truthy (heap w) cached_by_call then (Ok cached_by_call, w)
        else
          match cached_data with
          | Some ((_ :: _) as items) =>
              (Ok (VList (omap snd items)), w)
          | _ =>
              if negb api_key
              then
                (let* refs := alloc_all (default_jr <$> jr_numbers) in
                 ret (VList refs)) w
              else
                (let* data := requests_get jr_numbers in
                 let* _ := memo_get_data (sorted jr_numbers) data in
                 ret data) w
          end
  end.

(** [get_data_jr], under [@retry(stop=stop_after_attempt(4), wait=wait_fixed(20))] *)
Definition get_data_jr (jr_numbers : list string) (cached_data : option cache)
  : M value :=
  retry 4 20 (get_data_jr_body jr_numbers cached_data).

Definition caught_KeyError_TypeError (e : exn) : bool :=
  match e with KeyError | TypeError => true | _ => false end.

(** [get_single_jr] *)
Definition get_single_jr (number : string) (cached_data : option cache) : M value :=
  let cached_data := default [] cached_data in
  fun w =>
    let jr_data := default VNone (get_single_memo w !! number) in
    if truthy (heap w) jr_data then (Ok jr_data, w)
    else
      (let* jr_data :=
         try_except
           (match cache_lookup cached_data ("JR:" ++ number) with
            | Some (Some data) => ret data
            | _ => throw KeyError
            end)
           caught_KeyError_TypeError
           (let* jr_data := get_data_jr [number] (Some cached_data) in
            fun w' =>
              if truthy (heap w') jr_data
              then (index0 jr_data, w')
              else (Ok jr_data, w')) in
       let* _ := memo_get_single number jr_data in
       fun w' =>
         if truthy (heap w') jr_data then (Ok jr_data, w')
         else get_default_jr number w') w.

Definition caught_by_try_from_cache (e : exn) : bool :=
  match e with KeyError | AttributeError | ValueError => true | _ => false end.

(** [pytest.issue_data[issue]['data']]: the index is a [defaultdict], a
    missing key is created with an empty ['data']. *)
Definition issue_data_lookup (issue : string) : M value :=
  fun w =>
    match issue_data w with
    | None => (Raise AttributeError, w)
    | Some index =>
        match index !! issue with
        | Some a => (Ok (VRef a), w)
        | None =>
            (Ok (VRef (next w)),
             World (<[next w := ∅]> (heap w)) (S (next w))
                   (Some (<[issue := next w]> index))
                   (get_data_memo w) (get_single_memo w)
                   (requests_sent w) (seconds_slept w))
        end
    end.

(** [try_from_cache] *)
Definition try_from_cache (issue : string) (data : value) : M value :=
  try_except
    (fun w =>
       if truthy (heap w) data then (Ok data, w)
       else
         (let* stored := issue_data_lookup issue in
          fun w' =>
            if truthy (heap w') stored then (Ok stored, w')
            else (Raise ValueError, w')) w)
    caught_by_try_from_cache
    (get_single_jr (after_colon issue) None).

(** [is_open_jr] *)
Definition is_open_jr (issue : string) (data : value) : M value :=
  let* jr := try_from_cache issue data in
  fun w =>
    let h := heap w in
    let outcome :=
      rbind (py_get h jr "is_open") (fun is_open =>
      if is_not_none is_open then Ok is_open
      else
      rbind (follow_duplicates frames h jr) (fun jr =>
      rbind (py_get h jr "status") (fun status =>
      if in_tuple status OPEN_STATUSES then Ok (VBool true)
      else
      rbind (if in_tuple status CLOSED_STATUSES
             then rbind (py_get h jr "resolution") (fun resolution =>
                  in_str resolution WONTFIX_RESOLUTIONS)
             else Ok false) (fun wontfix =>
      if (wontfix : bool) then Ok (VBool true)
      else
      rbind (py_get h jr "fixVersions") (fun fixVersions =>
      rbind (min_version h fixVersions) (fun lowest =>
      (* [get_sat_version() < min(...) or Version('0')] parses as
         [(get_sat_version() < min(...)) or Version('0')] *)
      if version_lt sat_version lowest then Ok (VBool true)
      else Ok (VVersion [0%N]))))))) in
    (outcome, w).

(** [should_deselect_jr] *)
Definition should_deselect_jr (issue : string) (data : value) : M value :=
  let* jr := try_from_cache issue data in
  fun w =>
    let h := heap w in
    let outcome :=
      rbind (py_get h jr "is_deselected") (fun is_deselected =>
      if is_not_none is_deselected then Ok is_deselected
      else
      rbind (follow_duplicates frames h jr) (fun jr =>
      rbind (py_get h jr "status") (fun status =>
      if in_tuple status CLOSED_STATUSES
      then rbind (py_get h jr "resolution") (fun resolution =>
           rbind (in_str resolution WONTFIX_RESOLUTIONS) (fun b => Ok (VBool b)))
      else Ok (VBool false)))) in
    (outcome, w).

(** [collect_dupes] *)
Fixpoint collect_dupes (depth : nat) (jr : value) (collected_data : collected)
    (cached_data : option cache) : M collected :=
  match depth with
  | 0 => throw RecursionError
  | S depth' =>
      let cached_data := default [] cached_data in
      let* resolution := reading (fun h => py_get h jr "resolution") in
      if eq_str resolution "Duplicate"
      then
        let* dupe_of := reading (fun h => py_get h jr "dupe_of") in
        let* dupe_data := get_single_jr (format dupe_of) (Some cached_data) in
        let* _ := setitem jr "dupe_data" dupe_data in
        let* dupe_of := reading (fun h => py_getitem h jr "dupe_of") in
        let dupe_key := "JR:" ++ format dupe_of in
        if has_key collected_data dupe_key then ret collected_data
        else
          collect_dupes depth' dupe_data
            (collected_data ++ [(dupe_key, Entry dupe_data true)])%list (Some cached_data)
      else ret collected_data
  end.

(** The loop of [collect_data_jr] over the fetched records. *)
Fixpoint collect_each (jr_data : list value) (collected_data : collected)
    (cached_data : option cache) : M collected :=
  match jr_data with
  | [] => ret collected_data
  | data :: rest =>
      let* collected_data := collect_dupes frames data collected_data cached_data in
      let* id := reading (fun h => py_getitem h data "id") in
      let jr_key := "JR:" ++ format id in
      let* open := is_open_jr jr_key data in
      let* _ := setitem data "is_open" open in
      collect_each rest (set_entry_data collected_data jr_key data) cached_data
  end.

(** [collect_data_jr] *)
Definition collect_data_jr (collected_data : collected) (cached_data : option cache)
  : M collected :=
  let jr_numbers :=
    after_colon <$> List.filter (String.prefix "JR:") (fst <$> collected_data) in
  let* jr_data := get_data_jr jr_numbers cached_data in
  let* jr_data :=
    (fun w => if truthy (heap w) jr_data then (iterate (heap w) jr_data, w)
              else (Ok [], w)) in
  collect_each jr_data collected_data cached_data.

End Handlers.

(** *** Predicates the properties are stated with *)

(** [jr] leads, through [n] truthy [dupe_data] links, to the record [last]
    that has none. *)
Inductive duplicate_chain (h : store) : value -> nat -> value -> Prop :=
  | chain_end jr d :
      py_get h jr "dupe_data" = Ok d -> truthy h d = false ->
      duplicate_chain h jr 0 jr
  | chain_step jr d n last :
      py_get h jr "dupe_data" = Ok d -> truthy h d = true ->
      duplicate_chain h d n last ->
      duplicate_chain h jr (S n) last.

(** Whatever call depth the interpreter allows, the recursion uses it up. *)
Definition exhausts_every_stack (h : store) (jr : value) : Prop :=
  forall frames, follow_duplicates frames h jr = Raise RecursionError.

Definition no_dupe_data (h : store) (jr : value) : Prop :=
  exists d, py_get h jr "dupe_data" = Ok d /\ truthy h d = false.

(** The condition of line 42 of jira.py holds of [r]. *)
Definition closed_with_wontfix (h : store) (r : value) : Prop :=
  exists status resolution,
    py_get h r "status" = Ok status /\ in_tuple status CLOSED_STATUSES = true /\
    py_get h r "resolution" = Ok resolution /\
    in_str resolution WONTFIX_RESOLUTIONS = Ok true.

(** The world after [n] more requests and [seconds] more of waiting. *)
Definition after_requests (n seconds : nat) (w : world) : world :=
  World (heap w) (next w) (issue_data w) (get_data_memo w) (get_single_memo w)
        (requests_sent w + n) (seconds_slept w + seconds).

(** [CACHED_RESPONSES['get_data']] has nothing (truthy) for these numbers. *)
Definition no_memo (jr_numbers : list string) (w : world) : Prop :=
  truthy (heap w) (default VNone (get_data_memo w !! sorted jr_numbers)) = false.

(** [cached_data] is [None] or empty. *)
Definition no_cache (cached_data : option cache) : Prop :=
  cached_data = None \/ cached_data = Some [].

(** A computation that sends no request. *)
Definition quiet {A} (m : M A) : Prop :=
  forall w, requests_sent (snd (m w)) = requests_sent w.

(** *** Concrete records and worlds for the examples *)

Definition empty_world (h : store) (n : addr) : world :=
  World h n None ∅ ∅ 0 0.

(** A tracker that cannot be reached. *)
Definition no_tracker : nat -> list string -> result (option (list dict)) :=
  fun _ _ => Raise RequestException.

(** status "Closed", resolution "Done", fixVersions [6.10] *)
Definition closed_done_6_10 : dict :=
  <["id" := VStr "SAT-20548"]>
  (<["status" := VStr "Closed"]>
  (<["resolution" := VStr "Done"]>
  (<["fixVersions" := VList [VVersion [6%N; 10%N]]]> ∅))).

Definition fixed_world : world := empty_world {[ 1 := closed_done_6_10 ]} 2.

(** status "Release Pending", resolution left empty *)
Definition closed_blank_resolution : dict :=
  <["id" := VStr "SAT-20548"]>
  (<["status" := VStr "Release Pending"]>
  (<["resolution" := VStr ""]> ∅)).

Definition blank_world : world := empty_world {[ 1 := closed_blank_resolution ]} 2.

(** status "New", with a stored [is_open] of [False] and no fix version *)
Definition new_stored_closed : dict :=
  <["id" := VStr "SAT-20548"]>
  (<["status" := VStr "New"]>
  (<["is_open" := VBool false]> ∅)).

Definition stored_world : world := empty_world {[ 1 := new_stored_closed ]} 2.

(** status "In Progress", fixVersions [6.10] *)
Definition in_progress_6_10 : dict :=
  <["id" := VStr "SAT-20548"]>
  (<["status" := VStr "In Progress"]>
  (<["fixVersions" := VList [VVersion [6%N; 10%N]]]> ∅)).

Definition in_progress_world : world := empty_world {[ 1 := in_progress_6_10 ]} 2.

(** status "Closed", resolution "Done", no fixVersions *)
Definition closed_done_unversioned : dict :=
  <["id" := VStr "SAT-20548"]>
  (<["status" := VStr "Closed"]>
  (<["resolution" := VStr "Done"]> ∅)).

Definition unversioned_world : world :=
  empty_world {[ 1 := closed_done_unversioned ]} 2.

(** the record [get_default_jr] makes *)
Definition default_world : world := empty_world {[ 1 := default_jr "SAT-20548" ]} 2.

(** Two records that name each other as their duplicate. *)
Definition two_cycle : store :=
  {[ 1 := <["id" := VStr "SAT-1"]> (<["dupe_data" := VRef 2]> ∅);
     2 := <["id" := VStr "SAT-2"]> (<["dupe_data" := VRef 1]> ∅) ]}.

(** A duplicates B, B duplicates C, C is open. *)
Definition three_chain : store :=
  {[ 1 := <["id" := VStr "SAT-1"]> (<["status" := VStr "Closed"]>
          (<["resolution" := VStr "Duplicate"]> (<["dupe_data" := VRef 2]> ∅)));
     2 := <["id" := VStr "SAT-2"]> (<["status" := VStr "Closed"]>
          (<["resolution" := VStr "Duplicate"]> (<["dupe_data" := VRef 3]> ∅)));
     3 := <["id" := VStr "SAT-3"]> (<["status" := VStr "Review"]> ∅) ]}.


(** An open record as a cache file holds it after a first run. *)
Definition cached_open_record : dict :=
  <["id" := VStr "SAT-20548"]>
  (<["status" := VStr "New"]>
  (<["resolution" := VStr ""]>
  (<["is_open" := VBool true]> ∅))).

(** A cache file written by a run that collected the issue "JR:SAT-20548"
    and a [skip] mark whose reason is the text "not ready", as the next run
    loads it; and the index the next run has collected before it resolves. *)
Definition reloaded_cache : cache :=
  [("JR:SAT-20548", Some (VRef 1)); ("not ready", Some (VRef 2)); ("_meta", None)].
Definition reloaded_world : world :=
  empty_world {[ 1 := cached_open_record; 2 := ∅; 3 := ∅; 4 := ∅ ]} 5.
Definition second_run : collected :=
  [("JR:SAT-20548", Entry (VRef 3) false); ("not ready", Entry (VRef 4) false)].

(** *** Further predicates and records for the properties *)

(** An entry of the index under the key of a Jira issue. *)
Definition jr_key (kv : string * entry) : bool := String.prefix "JR:" (fst kv).

(** [c'] is [c] with the data of some "JR:" entries replaced and further
    "JR:" entries added at the end. *)
Definition grows_by_jr (c c' : collected) : Prop :=
  exists kept added,
    c' = (kept ++ added)%list /\
    Forall2 (fun kv kv' =>
               fst kv' = fst kv /\ e_is_dupe (snd kv') = e_is_dupe (snd kv) /\
               (jr_key kv = false -> kv' = kv)) c kept /\
    Forall (fun kv => jr_key kv = true) added.

(** The index after the loop of [collect_data_jr] has filed the records at
    the addresses from [start] on under the numbers [ns]. *)
Fixpoint filed (ns : list string) (start : addr) (c : collected) : collected :=
  match ns with
  | [] => c
  | n :: ns' => filed ns' (S start) (set_entry_data c ("JR:" ++ n) (VRef start))
  end.

(** [pytest.issue_data] is not set, or has no entry for the issue. *)
Definition not_collected (issue : string) (w : world) : Prop :=
  match issue_data w with
  | None => True
  | Some index => index !! issue = None
  end.

(** [CACHED_RESPONSES] holds nothing for the number. *)
Definition nothing_memoised (number : string) (w : world) : Prop :=
  get_single_memo w !! number = None /\ get_data_memo w !! sorted [number] = None.

(** status "Closed", resolution "Obsolete" *)
Definition closed_obsolete : dict :=
  <["id" := VStr "SAT-20548"]>
  (<["status" := VStr "Closed"]>
  (<["resolution" := VStr "Obsolete"]> ∅)).

Definition obsolete_world : world := empty_world {[ 1 := closed_obsolete ]} 2.

(** A tracker that fails twice and then answers with one record. *)
Definition flaky_tracker : nat -> list string -> result (option (list dict)) :=
  fun k _ => if Nat.ltb k 2 then Raise RequestException else Ok (Some [closed_done_6_10]).

(** Trackers that answer at once, with two records and with one open record. *)
Definition two_bug_tracker : nat -> list string -> result (option (list dict)) :=
  fun _ _ => Ok (Some [closed_done_6_10; in_progress_6_10]).
Definition open_tracker : nat -> list string -> result (option (list dict)) :=
  fun _ _ => Ok (Some [in_progress_6_10]).

(** The state after SAT-20548 was looked up in the reloaded cache, and after
    two numbers were fetched from the tracker. *)
Definition looked_up_world : world :=
  snd (get_single_jr true no_tracker "SAT-20548" (Some reloaded_cache) reloaded_world).
Definition fetched_world : world :=
  snd (get_data_jr true two_bug_tracker ["SAT-2"; "SAT-1"] None (empty_world ∅ 1)).

(** SAT-1, closed as a duplicate of SAT-2, and SAT-2, which is open; a cache
    that holds both, and an index that has collected SAT-1 and a Bugzilla. *)
Definition duplicate_of_2 : dict :=
  <["id" := VStr "SAT-1"]>
  (<["status" := VStr "Closed"]>
  (<["resolution" := VStr "Duplicate"]>
  (<["dupe_of" := VStr "SAT-2"]> ∅))).
Definition open_2 : dict :=
  <["id" := VStr "SAT-2"]>
  (<["status" := VStr "New"]>
  (<["resolution" := VStr ""]> ∅)).
Definition dupe_world : world :=
  empty_world {[ 1 := duplicate_of_2; 2 := open_2; 3 := ∅ ]} 4.
Definition dupe_cache : cache :=
  [("JR:SAT-1", Some (VRef 1)); ("JR:SAT-2", Some (VRef 2))].
Definition dupe_run : collected :=
  [("JR:SAT-1", Entry (VRef 3) false); ("BZ:123456", Entry (VRef 3) false)].
Definition dupe_collected : collected :=
  [("JR:SAT-1", Entry (VRef 1) false); ("BZ:123456", Entry (VRef 3) false);
   ("JR:SAT-2", Entry (VRef 2) true)].
Definition bz_run : collected := [("BZ:123456", Entry (VRef 3) false)].

(** A state in which [pytest.issue_data] holds the record of SAT-20548. *)
Definition collected_world : world :=
  World {[ 1 := closed_done_6_10 ]} 2 (Some {[ "JR:SAT-20548" := 1 ]}) ∅ ∅ 0 0.

End Jira.

(** ** [pytest_plugins/issue_handlers.py] *)
Module Plugin.
Import Py.

(** A pytest mark: its name, positional and keyword arguments. *)
Record mark : Type := Mark {
  name : string;
  args : list value;
  kwargs : list (string * value)
}.

(** [marker.kwargs.get(key)] *)
Definition kwargs_get (m : mark) (key : string) : value :=
  default VNone (snd <$> find (fun kv => String.eqb (fst kv) key) (kwargs m)).

(** A collected test item.  The docstring fields hold what the [BZ] and [JR]
    patterns find in the module, class and function docstrings (the tokens of
    the last field of each, split at commas and stripped). *)
Record item : Type := Item {
  nodeid : string;
  location : string * nat * string;   (* filepath, lineno, testcase *)
  own_markers : list mark;            (* the marks of the item itself *)
  inherited_markers : list mark;      (* those of its class and module, closest first *)
  doc_bz : list string;
  doc_jr : list string
}.

(** [item.iter_markers()]: the item's own marks come first. *)
Definition iter_markers (it : item) : list mark :=
  own_markers it ++ inherited_markers it.

(** [item.get_closest_marker(name)] *)
Definition get_closest_marker (it : item) (n : string) : option mark :=
  find (fun m => String.eqb (name m) n) (iter_markers it).

(** [item.add_marker(mark)] appends to the item's own marks. *)
Definition add_marker (it : item) (m : mark) : item :=
  Item (nodeid it) (location it) (own_markers it ++ [m]) (inherited_markers it)
       (doc_bz it) (doc_jr it).

Definition is_space (c : Ascii.ascii) : bool :=
  let n := Ascii.nat_of_ascii c in
  (Nat.leb 9 n && Nat.leb n 13) || (Nat.leb 28 n && Nat.leb n 32).

Fixpoint lstrip (s : string) : string :=
  match s with
  | String c s' => if is_space c then lstrip s' else s
  | EmptyString => EmptyString
  end.

Fixpoint rstrip (s : string) : string :=
  match s with
  | String c s' =>
      match rstrip s' with
      | EmptyString => if is_space c then EmptyString else String c EmptyString
      | r => String c r
      end
  | EmptyString => EmptyString
  end.

(** [s.strip()] *)
Definition strip (s : string) : string := rstrip (lstrip s).

(** [s.split(sep)] for a one-character separator *)
Fixpoint split_at (sep : Ascii.ascii) (s : string) : list string :=
  match s with
  | EmptyString => [EmptyString]
  | String c s' =>
      if Ascii.eqb c sep then EmptyString :: split_at sep s'
      else
        match split_at sep s' with
        | x :: r => String c x :: r
        | [] => [String c EmptyString]
        end
  end.

Definition comma : Ascii.ascii := Ascii.ascii_of_nat 44.
Definition colon : Ascii.ascii := Ascii.ascii_of_nat 58.

(** [s.split(':')[-1]] *)
Definition last_segment (s : string) : string :=
  List.last (split_at colon s) EmptyString.

Definition valid_markers : list string := ["skip_if_open"; "skip"; "deselect"].

(** A command-line filter after [if f: f = f.split(',')]: absent ([None]),
    the empty string (left as it is), or the list of requested numbers. *)
Inductive cli_filter : Type :=
  | NotGiven
  | Blank
  | Numbers (l : list string).

(** [config.getoption(...)] followed by the split *)
Definition read_filter (option : option string) : cli_filter :=
  match option with
  | None => NotGiven
  | Some s => if String.eqb s "" then Blank else Numbers (split_at comma s)
  end.

Definition filter_truthy (f : cli_filter) : bool :=
  match f with
  | Numbers (_ :: _) => true
  | _ => false
  end.

(** [set(f)]: [None] cannot be iterated. *)
Definition set_of_filter (f : cli_filter) : result (list string) :=
  match f with
  | NotGiven => Raise TypeError
  | Blank => Ok []
  | Numbers l => Ok l
  end.

Definition hashable (v : value) : bool :=
  match v with
  | VList _ | VRef _ => false
  | _ => true
  end.

(** [set(args)] *)
Definition set_of_args (l : list value) : result (list value) :=
  if forallb hashable l then Ok l else Raise TypeError.

(** [bool(set(numbers) & marks)] *)
Definition intersects (numbers : list string) (marks : list value) : bool :=
  existsb
    (fun n => existsb (fun m => match m with VStr s => String.eqb s n | _ => false end) marks)
    numbers.

(** [getattr(item.get_closest_marker(name, None), 'args', [])] *)
Definition closest_args (it : item) (n : string) : list value :=
  match get_closest_marker it n with
  | Some m => args m
  | None => []
  end.

Section Hooks.
(** the store behind dict-valued mark arguments *)
Variable h : store.
(** [is_open(issue)] of robottelo.utils.issue_handlers, which hands the
    issue to the handler of its tracker *)
Variable is_open : value -> result value.
(** [should_deselect(issue, data)] of the same package *)
Variable should_deselect : string -> result value.
(** [bugzilla.collect_data_bz] and [jira.collect_data_jr] on the collected
    issue keys *)
Variable collect_data : list string -> result unit.
(** [slugify_component(component, False)] of robottelo.utils *)
Variable slugify_component : value -> result string.

(** [marker.kwargs.get('reason') or marker.args[0]] *)
Definition issue_of (m : mark) : result value :=
  let reason := kwargs_get m "reason" in
  if truthy h reason then Ok reason
  else
    match args m with
    | x :: _ => Ok x
    | [] => Raise IndexError
    end.

(** [issue.strip()] *)
Definition issue_key_of (issue : value) : result string :=
  match issue with
  | VStr s => Ok (strip s)
  | _ => Raise AttributeError
  end.

(** The loop over [item.iter_markers()] of [generate_issue_collection]:
    the issue keys of the marks named in [valid_markers], in order. *)
Fixpoint scan_markers (ms : list mark) : result (list string) :=
  match ms with
  | [] => Ok []
  | marker :: rest =>
      if existsb (String.eqb (name marker)) valid_markers
      then
        rbind (issue_of marker) (fun issue =>
        rbind (issue_key_of issue) (fun issue_key =>
        rbind (scan_markers rest) (fun keys =>
        Ok (issue_key :: keys))))
      else scan_markers rest
  end.

(** [.args[0]] of a closest marker that may be missing *)
Definition first_arg_of (m : option mark) : result value :=
  match m with
  | None => Raise AttributeError
  | Some m => match args m with x :: _ => Ok x | [] => Raise IndexError end
  end.

Definition add_marks (it : item) (n : string) (numbers : list string) : item :=
  match numbers with
  | [] => it
  | _ :: _ => add_marker it (Mark n (VStr <$> numbers) [])
  end.

(** One round of the first loop of [generate_issue_collection]: the item
    with its derived [BZ] and [JR] marks, and the issue keys it uses.  (The
    scan of the test's source text for [is_open(...)] calls only files
    usage records and is left out.) *)
Definition collect_item (it : item) : result (item * list string) :=
  if String.prefix "tests/robottelo/" (nodeid it) then Ok (it, [])
  else
    match get_closest_marker it "component" with
    | None => Ok (it, [])
    | Some components =>
        rbind (first_arg_of (Some components)) (fun component_mark =>
        rbind (slugify_component component_mark) (fun _ =>
        rbind (first_arg_of (get_closest_marker it "importance")) (fun _ =>
        rbind (scan_markers (iter_markers it)) (fun keys =>
        let numbers := last_segment <$> keys in
        let it := add_marks it "BZ" (doc_bz it ++ numbers) in
        let it := add_marks it "JR" (doc_jr it ++ numbers) in
        Ok (it, keys)))))
    end.

Fixpoint collect_items (items : list item) : result (list (item * list string)) :=
  match items with
  | [] => Ok []
  | it :: rest =>
      rbind (collect_item it) (fun scanned =>
      rbind (collect_items rest) (fun rest' =>
      Ok (scanned :: rest')))
  end.

(** [deselect_data[item.location] = issue_key], written for every valid
    mark of the item: the item's last key stays. *)
Definition deselect_data_of (scanned : list (item * list string))
  : list (string * nat * string * string) :=
  omap (fun '(it, keys) => (fun key => (location it, key)) <$> last keys) scanned.

Definition location_eqb (a b : string * nat * string) : bool :=
  String.eqb a.1.1 b.1.1 && Nat.eqb a.1.2 b.1.2 && String.eqb a.2 b.2.

(** [deselect_data.get(item.location)].  Items sharing a location share
    the entry; the entry written last is the one of the last such item. *)
Definition deselect_lookup (deselect_data : list (string * nat * string * string))
    (loc : string * nat * string) : option string :=
  List.last (Some <$> (snd <$> List.filter (fun e => location_eqb (fst e) loc) deselect_data))
            None.

(** The loop that adds the [deselect] marks. *)
Fixpoint mark_deselected (deselect_data : list (string * nat * string * string))
    (items : list item) : result (list item) :=
  match items with
  | [] => Ok []
  | it :: rest =>
      rbind
        (match deselect_lookup deselect_data (location it) with
         | Some issue =>
             if String.eqb issue "" then Ok it
             else
               rbind (should_deselect issue) (fun d =>
               if truthy h d
               then Ok (add_marker it (Mark "deselect" [] [("reason", VStr issue)]))
               else Ok it)
         | None => Ok it
         end) (fun it' =>
      rbind (mark_deselected deselect_data rest) (fun rest' =>
      Ok (it' :: rest')))
  end.

(** [generate_issue_collection], as far as the items are concerned: the
    items with their added marks and the keys of the collected index.  The
    usage records, the scans of source text for [is_open(...)] calls and the
    cache files (see [load_cached_data] and [write_cache_files] below) are
    not part of this function. *)
Definition generate_issue_collection (items : list item)
  : result (list item * list string) :=
  rbind (collect_items items) (fun scanned =>
  let items := fst <$> scanned in
  let keys := concat (snd <$> scanned) in
  let deselect_data := deselect_data_of scanned in
  rbind (collect_data keys) (fun _ =>
  rbind (mark_deselected deselect_data items) (fun items =>
  Ok (items, keys)))).

(** The [skip_if_open] part of the loop of [pytest_collection_modifyitems] *)
Definition add_skipif (it : item) : result item :=
  match get_closest_marker it "skip_if_open" with
  | None => Ok it
  | Some skip_if_open =>
      rbind (issue_of skip_if_open) (fun issue =>
      rbind (is_open issue) (fun open =>
      Ok (add_marker it (Mark "skipif" [open] [("reason", issue)]))))
  end.

(** The filter part: whether the item stays in the collection. *)
Definition is_selected (bz_filters jr_filters : cli_filter) (it : item) : result bool :=
  if filter_truthy bz_filters || filter_truthy jr_filters
  then
    rbind (set_of_args (closest_args it "BZ")) (fun item_bz_marks =>
    rbind (set_of_args (closest_args it "JR")) (fun item_jr_marks =>
    rbind (set_of_filter bz_filters) (fun bz =>
    if intersects bz item_bz_marks then Ok true
    else
      rbind (set_of_filter jr_filters) (fun jr =>
      Ok (intersects jr item_jr_marks)))))
  else Ok true.

(** The loop over the items: the selected and the deselected ones. *)
Fixpoint modify_items (bz_filters jr_filters : cli_filter) (items : list item)
  : result (list item * list item) :=
  match items with
  | [] => Ok ([], [])
  | it :: rest =>
      rbind (add_skipif it) (fun it =>
      rbind (is_selected bz_filters jr_filters it) (fun keep =>
      rbind (modify_items bz_filters jr_filters rest) (fun '(selected, deselected) =>
      if (keep : bool) then Ok (it :: selected, deselected)
      else Ok (selected, it :: deselected))))
  end.

(** [pytest_collection_modifyitems]: [BZ] and [JR] are the values of the
    two command-line options. *)
Definition pytest_collection_modifyitems (BZ JR : option string) (items : list item)
  : result (list item * list item) :=
  rbind (generate_issue_collection items) (fun '(items, _) =>
  modify_items (read_filter BZ) (read_filter JR) items).

End Hooks.

(** *** The cache files *)

Section CacheFiles.
(** a JSON document, and the collected index *)
Variable document : Type.
Variable index : Type.
(** what a reloaded document is turned into:
    [{k: search_version_key(k, v) for k, v in json.load(file).items()}]
    (robottelo.utils.version) *)
Variable cached : Type.
Variable restore : document -> cached.
(** [json.dump(collected_data, file, indent=4, cls=VersionEncoder)], the
    index with its ["_meta"] entry *)
Variable dump : index -> document.

(** The two cache files, [None] for one that does not exist. *)
Record files : Type := Files {
  bz_cache_file : option document;   (* bz_cache.json *)
  jr_cache_file : option document    (* jr_cache.json *)
}.

(** The start of [generate_issue_collection]: [cached_data] from the files.
    ([FileNotFoundError] is caught and leaves [cached_data] as it is.) *)
Definition load_cached_data (use_bz_cache use_jr_cache : bool) (fs : files)
  : option cached :=
  let cached_data := None in
  let cached_data :=
    if use_bz_cache || use_jr_cache
    then match bz_cache_file fs with
         | Some doc => Some (restore doc)
         | None => cached_data
         end
    else cached_data in
  if use_jr_cache
  then match jr_cache_file fs with
       | Some doc => Some (restore doc)
       | None => cached_data
       end
  else cached_data.

(** The end of [generate_issue_collection]: a cache file is written when no
    cached data was loaded and a cache option is on. *)
Definition write_cache_files (use_bz_cache use_jr_cache : bool)
    (cached_data : option cached) (collected_data : index) (fs : files) : files :=
  match cached_data with
  | None =>
      if use_bz_cache || use_jr_cache
      then Files (if use_bz_cache then Some (dump collected_data) else bz_cache_file fs)
                 (if use_jr_cache then Some (dump collected_data) else jr_cache_file fs)
      else fs
  | Some _ => fs
  end.

End CacheFiles.

(** *** Predicates and concrete items for the properties *)

(** A mark with neither a truthy ['reason'] nor a positional argument. *)
Definition malformed (h : store) (m : mark) : Prop :=
  truthy h (kwargs_get m "reason") = false /\ args m = [].

(** Collaborators that answer without failing. *)
Definition never_open : value -> result value := fun _ => Ok (VBool false).
Definition never_deselect : string -> result value := fun _ => Ok (VBool false).
Definition collect_nothing : list string -> result unit := fun _ => Ok tt.
Definition slug_any : value -> result string := fun _ => Ok "".

Definition component_marks : list mark :=
  [Mark "component" [VStr "Hosts"] []; Mark "importance" [VStr "High"] []].

(** A test of the product suite whose docstring names one Bugzilla. *)
Definition api_test (testcase bz : string) : item :=
  Item ("tests/foreman/api/test_host.py::" ++ testcase)
       ("tests/foreman/api/test_host.py", 10, testcase)
       [] component_marks [bz] [].

(** A test of the product suite under a bare [skip_if_open] mark. *)
Definition api_test_bare_skip_if_open : item :=
  Item "tests/foreman/api/test_host.py::test_bare"
       ("tests/foreman/api/test_host.py", 30, "test_bare")
       [Mark "skip_if_open" [] []] component_marks [] [].

(** A test of the product suite under [skip_if_open("JR:SAT-20548")]. *)
Definition api_test_skip_if_open : item :=
  Item "tests/foreman/api/test_host.py::test_open"
       ("tests/foreman/api/test_host.py", 40, "test_open")
       [Mark "skip_if_open" [VStr "JR:SAT-20548"] []] component_marks [] [].

(** A test of the product suite under [skip(reason="not ready")]. *)
Definition api_test_skip_reason : item :=
  Item "tests/foreman/api/test_host.py::test_later"
       ("tests/foreman/api/test_host.py", 50, "test_later")
       [Mark "skip" [] [("reason", VStr "not ready")]] component_marks [] [].

(** A unit test of the suite itself, skipped without a reason. *)
Definition unit_test_bare_skip : item :=
  Item "tests/robottelo/test_cli.py::test_alias"
       ("tests/robottelo/test_cli.py", 3, "test_alias")
       [Mark "skip" [] []] [] [] [].

(** The hook with collaborators that never fail. *)
Definition run_hook (BZ JR : option string) (items : list item)
  : result (list item * list item) :=
  pytest_collection_modifyitems ∅ never_open never_deselect collect_nothing slug_any
    BZ JR items.

(** [it'] is [it] with further marks of its own. *)
Definition only_marks_added (it it' : item) : Prop :=
  nodeid it' = nodeid it /\ location it' = location it /\
  inherited_markers it' = inherited_markers it /\
  doc_bz it' = doc_bz it /\ doc_jr it' = doc_jr it /\
  own_markers it `prefix_of` own_markers it'.

(** An option that was not given, or given as the empty string. *)
Definition no_filter (option : option string) : Prop :=
  option = None \/ option = Some "".

(** [bool((set(bz_filters) & item_bz_marks) or (set(jr_filters) & item_jr_marks))] *)
Definition matches_filters (bz jr : list string) (it : item) : bool :=
  intersects bz (closest_args it "BZ") || intersects jr (closest_args it "JR").

(** An item with the [BZ] and [JR] marks derived from one issue number. *)
Definition with_issue_marks (it : item) (number : string) : item :=
  add_marker (add_marker it (Mark "BZ" [VStr number] [])) (Mark "JR" [VStr number] []).

End Plugin.

(** ** Properties of the Jira handler *)
Module JiraFacts.
Import Py Jira.

Lemma closed_not_open status :
  in_tuple status CLOSED_STATUSES = true -> in_tuple status OPEN_STATUSES = false.
Proof.
  destruct status as [| | s | | |]; cbn; try discriminate.
  rewrite !orb_true_iff.
  intros [H|[H|H]]; try discriminate; apply String.eqb_eq in H; subst; reflexivity.
Qed.


(** *** [follow_duplicates] *)

Lemma follow_duplicates_chain h jr n last frames :
  duplicate_chain h jr n last -> n < frames ->
  follow_duplicates frames h jr = Ok last.
Proof.
  intros Hc. revert frames.
  induction Hc as [jr d Hg Ht | jr d n last Hg Ht Hc IH]; intros [|frames] Hlt; try lia.
  - cbn. rewrite Hg, Ht. reflexivity.
  - cbn. rewrite Hg, Ht. apply IH. lia.
Qed.

Lemma follow_duplicates_short_stack h jr n last frames :
  duplicate_chain h jr n last -> frames <= n ->
  follow_duplicates frames h jr = Raise RecursionError.
Proof.
  intros Hc. revert frames.
  induction Hc as [jr d Hg Ht | jr d n last Hg Ht Hc IH]; intros [|frames] Hle;
    try reflexivity; try lia.
  cbn. rewrite Hg, Ht. apply IH. lia.
Qed.

(** X6: a record [follow_duplicates] returns is the end of a chain of
    [dupe_data] links shorter than the call depth allowed. *)
Lemma follow_duplicates_returns h frames : forall jr last,
  follow_duplicates frames h jr = Ok last ->
  exists n, n < frames /\ duplicate_chain h jr n last.
Proof.
  induction frames as [|frames IH]; intros jr last; cbn; [discriminate|].
  destruct (py_get h jr "dupe_data") as [d|] eqn:Hg; [|discriminate].
  destruct (truthy h d) eqn:Ht.
  - intros H. destruct (IH _ _ H) as (n & Hn & Hc).
    exists (S n). split; [lia|]. eapply chain_step; eauto.
  - intros [= <-]. exists 0. split; [lia|]. eapply chain_end; eauto.
Qed.

(** C3, as the code has it: a duplicate chain that ends -- after [n] links
    it reaches a record without [dupe_data] -- is followed to that record
    whenever the interpreter allows more than [n] nested calls, and ends in
    [RecursionError] when it allows fewer.  Nothing guards against a chain
    that does not end. *)
Theorem follow_duplicates_terminates h jr n last :
  duplicate_chain h jr n last ->
  (forall frames, n < frames -> follow_duplicates frames h jr = Ok last) /\
  (forall frames, frames <= n -> follow_duplicates frames h jr = Raise RecursionError).
Proof.
  intros Hc. split; intros frames Hf.
  - eapply follow_duplicates_chain; eauto.
  - eapply follow_duplicates_short_stack; eauto.
Qed.

Lemma three_chain_is_a_chain : duplicate_chain three_chain (VRef 1) 2 (VRef 3).
Proof.
  eapply chain_step; [reflexivity | reflexivity |].
  eapply chain_step; [reflexivity | reflexivity |].
  eapply chain_end; reflexivity.
Qed.

Lemma follow_duplicates_terminates_witness :
  (forall frames, 2 < frames -> follow_duplicates frames three_chain (VRef 1) = Ok (VRef 3)) /\
  (forall frames, frames <= 2 ->
     follow_duplicates frames three_chain (VRef 1) = Raise RecursionError).
Proof.
  exact (follow_duplicates_terminates three_chain (VRef 1) 2 (VRef 3) three_chain_is_a_chain).
Defined.

(** C3 as stated fails: on two records that name each other as duplicate,
    [follow_duplicates] returns no record at any recursion limit. *)
Lemma two_cycle_exhausts : exhausts_every_stack two_cycle (VRef 1).
Proof.
  assert (forall frames,
    follow_duplicates frames two_cycle (VRef 1) = Raise RecursionError /\
    follow_duplicates frames two_cycle (VRef 2) = Raise RecursionError) as H.
  { induction frames as [|frames [IH1 IH2]]; [split; reflexivity|].
    split.
    - change (follow_duplicates (S frames) two_cycle (VRef 1))
        with (follow_duplicates frames two_cycle (VRef 2)). exact IH2.
    - change (follow_duplicates (S frames) two_cycle (VRef 2))
        with (follow_duplicates frames two_cycle (VRef 1)). exact IH1. }
  intros frames. apply H.
Qed.

Section Resolution.
Variable sat_version : Version.
Variable api_key : bool.
Variable tracker : nat -> list string -> result (option (list dict)).
Variable frames : nat.

Lemma try_from_cache_given issue data w :
  truthy (heap w) data = true ->
  try_from_cache api_key tracker issue data w = (Ok data, w).
Proof.
  intros H. unfold try_from_cache, try_except. rewrite H. reflexivity.
Qed.

(** *** [is_open_jr] *)

(** A stored [is_open] that is not [None] is returned as it is. *)
Lemma is_open_jr_stored issue data w jr w' stored :
  try_from_cache api_key tracker issue data w = (Ok jr, w') ->
  py_get (heap w') jr "is_open" = Ok stored ->
  is_not_none stored = true ->
  is_open_jr sat_version api_key tracker frames issue data w = (Ok stored, w').
Proof.
  intros Ht Hm Hn. unfold is_open_jr, bind. rewrite Ht. cbn [rbind]. rewrite Hm.
  cbn [rbind]. rewrite Hn. reflexivity.
Qed.

Lemma is_open_jr_computed issue data w jr w' :
  try_from_cache api_key tracker issue data w = (Ok jr, w') ->
  py_get (heap w') jr "is_open" = Ok VNone ->
  is_open_jr sat_version api_key tracker frames issue data w =
  (rbind (follow_duplicates frames (heap w') jr) (fun jr =>
   rbind (py_get (heap w') jr "status") (fun status =>
   if in_tuple status OPEN_STATUSES then Ok (VBool true)
   else
   rbind (if in_tuple status CLOSED_STATUSES
          then rbind (py_get (heap w') jr "resolution") (fun resolution =>
               in_str resolution WONTFIX_RESOLUTIONS)
          else Ok false) (fun wontfix =>
   if (wontfix : bool) then Ok (VBool true)
   else
   rbind (py_get (heap w') jr "fixVersions") (fun fixVersions =>
   rbind (min_version (heap w') fixVersions) (fun lowest =>
   if version_lt sat_version lowest then Ok (VBool true)
   else Ok (VVersion [0%N])))))), w').
Proof.
  intros Ht Hm. unfold is_open_jr, bind. rewrite Ht. cbn [rbind]. rewrite Hm. reflexivity.
Qed.

(** C6, as the code has it: for a record without a stored [is_open] whose
    duplicate chain ends, within the call depth allowed, in a record with a
    status of the open set, [is_open_jr] returns [True], whatever the fix
    versions are. *)
Theorem is_open_jr_open_status issue data w jr w' n r status :
  try_from_cache api_key tracker issue data w = (Ok jr, w') ->
  py_get (heap w') jr "is_open" = Ok VNone ->
  duplicate_chain (heap w') jr n r -> n < frames ->
  py_get (heap w') r "status" = Ok status ->
  in_tuple status OPEN_STATUSES = true ->
  is_open_jr sat_version api_key tracker frames issue data w = (Ok (VBool true), w').
Proof.
  intros Ht Hm Hch Hn Hs Ho.
  pose proof (follow_duplicates_chain _ _ _ _ _ Hch Hn) as Hf.
  rewrite (is_open_jr_computed _ _ _ _ _ Ht Hm), Hf. cbn [rbind].
  rewrite Hs. cbn [rbind]. rewrite Ho. reflexivity.
Qed.

(** A closed record with a resolution outside "Obsolete" and a lowest fix
    version at or below the server's: the value returned is [Version('0')]. *)
Lemma is_open_jr_fixed issue data w jr w' r status resolution fixVersions lowest :
  try_from_cache api_key tracker issue data w = (Ok jr, w') ->
  py_get (heap w') jr "is_open" = Ok VNone ->
  follow_duplicates frames (heap w') jr = Ok r ->
  py_get (heap w') r "status" = Ok status ->
  in_tuple status CLOSED_STATUSES = true ->
  py_get (heap w') r "resolution" = Ok (VStr resolution) ->
  substring_of resolution WONTFIX_RESOLUTIONS = false ->
  py_get (heap w') r "fixVersions" = Ok fixVersions ->
  min_version (heap w') fixVersions = Ok lowest ->
  version_lt sat_version lowest = false ->
  is_open_jr sat_version api_key tracker frames issue data w = (Ok (VVersion [0%N]), w').
Proof.
  intros Ht Hm Hf Hs Hc Hr Hsub Hfv Hmin Hlt.
  rewrite (is_open_jr_computed _ _ _ _ _ Ht Hm), Hf. cbn [rbind].
  rewrite Hs. cbn [rbind].
  rewrite (closed_not_open _ Hc), Hc, Hr. cbn [rbind in_str].
  rewrite Hsub, Hfv. cbn [rbind]. rewrite Hmin. cbn [rbind]. rewrite Hlt. reflexivity.
Qed.

(** X1: without a stored [is_open], no value [is_open_jr] returns is false. *)
Lemma is_open_jr_never_falsy issue data w jr w' v w'' :
  try_from_cache api_key tracker issue data w = (Ok jr, w') ->
  py_get (heap w') jr "is_open" = Ok VNone ->
  is_open_jr sat_version api_key tracker frames issue data w = (Ok v, w'') ->
  truthy (heap w'') v = true.
Proof.
  intros Ht Hm. rewrite (is_open_jr_computed _ _ _ _ _ Ht Hm).
  destruct (follow_duplicates frames (heap w') jr) as [r|]; cbn [rbind]; [|discriminate].
  destruct (py_get (heap w') r "status") as [status|]; cbn [rbind]; [|discriminate].
  destruct (in_tuple status OPEN_STATUSES); [intros [= <- <-]; reflexivity|].
  destruct (if in_tuple status CLOSED_STATUSES then _ else _) as [[]|];
    cbn [rbind]; [intros [= <- <-]; reflexivity | | discriminate].
  destruct (py_get (heap w') r "fixVersions") as [fv|]; cbn [rbind]; [|discriminate].
  destruct (min_version (heap w') fv) as [lowest|]; cbn [rbind]; [|discriminate].
  destruct (version_lt sat_version lowest); intros [= <- <-]; reflexivity.
Qed.

(** C10, as the code has it: for a record without a stored [is_open] whose
    duplicate chain ends, within the call depth allowed, in a record that is
    not open, not closed with a won't-fix resolution, and has no or an empty
    [fixVersions], [is_open_jr] raises ([TypeError] or [ValueError]) and
    returns nothing. *)
Theorem is_open_jr_without_fix_versions issue data w jr w' n r status :
  try_from_cache api_key tracker issue data w = (Ok jr, w') ->
  py_get (heap w') jr "is_open" = Ok VNone ->
  duplicate_chain (heap w') jr n r -> n < frames ->
  py_get (heap w') r "status" = Ok status ->
  in_tuple status OPEN_STATUSES = false ->
  ~ closed_with_wontfix (heap w') r ->
  py_get (heap w') r "fixVersions" = Ok VNone
  \/ py_get (heap w') r "fixVersions" = Ok (VList []) ->
  exists e,
    is_open_jr sat_version api_key tracker frames issue data w = (Raise e, w')
    /\ (e = TypeError \/ e = ValueError).
Proof.
  intros Ht Hm Hch Hn Hs Ho Hw Hfv.
  pose proof (follow_duplicates_chain _ _ _ _ _ Hch Hn) as Hf.
  rewrite (is_open_jr_computed _ _ _ _ _ Ht Hm), Hf. cbn [rbind].
  rewrite Hs. cbn [rbind]. rewrite Ho.
  destruct (in_tuple status CLOSED_STATUSES) eqn:Hc.
  - destruct (py_get (heap w') r "resolution") as [res|e] eqn:Hres.
    2:{ destruct r; discriminate Hs || discriminate Hres. }
    cbn [rbind]. destruct (in_str res WONTFIX_RESOLUTIONS) as [[]|e] eqn:Hin; cbn [rbind].
    + exfalso. apply Hw. exists status, res. auto.
    + destruct Hfv as [-> | ->]; cbn; eauto.
    + destruct res; cbn in Hin; try discriminate Hin; injection Hin as <-; eauto.
  - cbn [rbind]. destruct Hfv as [-> | ->]; cbn; eauto.
Qed.

(** *** [should_deselect_jr] *)

(** A stored [is_deselected] that is not [None] is returned as it is. *)
Lemma should_deselect_jr_stored issue data w jr w' stored :
  try_from_cache api_key tracker issue data w = (Ok jr, w') ->
  py_get (heap w') jr "is_deselected" = Ok stored ->
  is_not_none stored = true ->
  should_deselect_jr api_key tracker frames issue data w = (Ok stored, w').
Proof.
  intros Ht Hm Hn. unfold should_deselect_jr, bind. rewrite Ht. cbn [rbind].
  rewrite Hm. cbn [rbind]. rewrite Hn. reflexivity.
Qed.

Lemma should_deselect_jr_computed issue data w jr w' :
  try_from_cache api_key tracker issue data w = (Ok jr, w') ->
  py_get (heap w') jr "is_deselected" = Ok VNone ->
  should_deselect_jr api_key tracker frames issue data w =
  (rbind (follow_duplicates frames (heap w') jr) (fun jr =>
   rbind (py_get (heap w') jr "status") (fun status =>
   if in_tuple status CLOSED_STATUSES
   then rbind (py_get (heap w') jr "resolution") (fun resolution =>
        rbind (in_str resolution WONTFIX_RESOLUTIONS) (fun b => Ok (VBool b)))
   else Ok (VBool false))), w').
Proof.
  intros Ht Hm. unfold should_deselect_jr, bind. rewrite Ht. cbn [rbind].
  rewrite Hm. reflexivity.
Qed.

(** On a closed record the answer is the substring test of its resolution. *)
Lemma should_deselect_jr_closed issue data w jr w' r status resolution :
  try_from_cache api_key tracker issue data w = (Ok jr, w') ->
  py_get (heap w') jr "is_deselected" = Ok VNone ->
  follow_duplicates frames (heap w') jr = Ok r ->
  py_get (heap w') r "status" = Ok status ->
  in_tuple status CLOSED_STATUSES = true ->
  py_get (heap w') r "resolution" = Ok (VStr resolution) ->
  should_deselect_jr api_key tracker frames issue data w =
  (Ok (VBool (substring_of resolution WONTFIX_RESOLUTIONS)), w').
Proof.
  intros Ht Hm Hf Hs Hc Hr.
  rewrite (should_deselect_jr_computed _ _ _ _ _ Ht Hm), Hf. cbn [rbind].
  rewrite Hs. cbn [rbind]. rewrite Hc, Hr. reflexivity.
Qed.

(** Without a stored [is_deselected], a record whose duplicate-followed
    status is outside the closed set is not deselected. *)
Lemma should_deselect_jr_not_closed issue data w jr w' r status :
  try_from_cache api_key tracker issue data w = (Ok jr, w') ->
  py_get (heap w') jr "is_deselected" = Ok VNone ->
  follow_duplicates frames (heap w') jr = Ok r ->
  py_get (heap w') r "status" = Ok status ->
  in_tuple status CLOSED_STATUSES = false ->
  should_deselect_jr api_key tracker frames issue data w = (Ok (VBool false), w').
Proof.
  intros Ht Hm Hf Hs Hc.
  rewrite (should_deselect_jr_computed _ _ _ _ _ Ht Hm), Hf. cbn [rbind].
  rewrite Hs. cbn [rbind]. rewrite Hc. reflexivity.
Qed.

(** A closed record whose resolution is no string ([None] when the tracker
    left it out) makes the substring test raise. *)
Lemma should_deselect_jr_resolution_not_str issue data w jr w' r status resolution :
  try_from_cache api_key tracker issue data w = (Ok jr, w') ->
  py_get (heap w') jr "is_deselected" = Ok VNone ->
  follow_duplicates frames (heap w') jr = Ok r ->
  py_get (heap w') r "status" = Ok status ->
  in_tuple status CLOSED_STATUSES = true ->
  py_get (heap w') r "resolution" = Ok resolution ->
  (forall s, resolution <> VStr s) ->
  should_deselect_jr api_key tracker frames issue data w = (Raise TypeError, w').
Proof.
  intros Ht Hm Hf Hs Hc Hr Hn.
  rewrite (should_deselect_jr_computed _ _ _ _ _ Ht Hm), Hf. cbn [rbind].
  rewrite Hs. cbn [rbind]. rewrite Hc, Hr. cbn [rbind].
  destruct resolution; try reflexivity. now destruct (Hn s).
Qed.


End Resolution.

(** C6 as stated fails: a record with status "New" that carries a stored
    [is_open] of [False] is answered with the stored value. *)
Lemma is_open_jr_open_status_stored_false :
  py_get (heap stored_world) (VRef 1) "status" = Ok (VStr "New") /\
  in_tuple (VStr "New") OPEN_STATUSES = true /\
  is_open_jr [6%N; 11%N] true no_tracker 1000 "JR:SAT-20548" (VRef 1) stored_world
  = (Ok (VBool false), stored_world).
Proof. repeat split. Qed.

Lemma is_open_jr_open_status_witness :
  is_open_jr [6%N; 11%N] true no_tracker 1000 "JR:SAT-20548" (VRef 1) in_progress_world
  = (Ok (VBool true), in_progress_world).
Proof.
  apply (is_open_jr_open_status [6%N; 11%N] true no_tracker 1000 "JR:SAT-20548"
           (VRef 1) in_progress_world (VRef 1) in_progress_world 0 (VRef 1)
           (VStr "In Progress"));
    [reflexivity | reflexivity | apply chain_end with (d := VNone); reflexivity
    | lia | reflexivity | reflexivity].
Defined.

(** C10 as stated fails: the record [get_default_jr] makes has a status
    outside both sets and no [fixVersions], and [is_open_jr] returns its stored
    [True] instead of raising. *)
Lemma is_open_jr_default_record_returns :
  py_get (heap default_world) (VRef 1) "status" = Ok (VStr "") /\
  in_tuple (VStr "") OPEN_STATUSES = false /\
  in_tuple (VStr "") CLOSED_STATUSES = false /\
  py_get (heap default_world) (VRef 1) "fixVersions" = Ok VNone /\
  is_open_jr [6%N; 11%N] true no_tracker 1000 "JR:SAT-20548" (VRef 1) default_world
  = (Ok (VBool true), default_world).
Proof. repeat split. Qed.

Lemma unversioned_not_wontfix : ~ closed_with_wontfix (heap unversioned_world) (VRef 1).
Proof.
  intros (status & resolution & _ & _ & Hr & Hin).
  vm_compute in Hr. injection Hr as <-. discriminate Hin.
Qed.

Lemma is_open_jr_without_fix_versions_witness :
  exists e,
    is_open_jr [6%N; 11%N] true no_tracker 1000 "JR:SAT-20548" (VRef 1) unversioned_world
    = (Raise e, unversioned_world)
    /\ (e = TypeError \/ e = ValueError).
Proof.
  apply (is_open_jr_without_fix_versions [6%N; 11%N] true no_tracker 1000
           "JR:SAT-20548" (VRef 1) unversioned_world (VRef 1) unversioned_world
           0 (VRef 1) (VStr "Closed"));
    [reflexivity | reflexivity | apply chain_end with (d := VNone); reflexivity
    | lia | reflexivity | reflexivity
    | exact unversioned_not_wontfix | left; reflexivity].
Defined.


(** C1 (a defect of the code): the record of the scenario -- status
    "Closed", resolution "Done", fix version 6.10, on a server at 6.11 -- is
    answered with [Version('0')], which is true like any plain object, where a
    false value is due. *)
Theorem is_open_jr_fixed_issue_is_not_false :
  is_open_jr [6%N; 11%N] true no_tracker 1000 "JR:SAT-20548" (VRef 1) fixed_world
  = (Ok (VVersion [0%N]), fixed_world) /\
  truthy (heap fixed_world) (VVersion [0%N]) = true.
Proof.
  split; [|reflexivity].
  apply (is_open_jr_fixed [6%N; 11%N] true no_tracker 1000 "JR:SAT-20548" (VRef 1)
           fixed_world (VRef 1) fixed_world (VRef 1) (VStr "Closed") "Done"
           (VList [VVersion [6%N; 10%N]]) [6%N; 10%N]); reflexivity.
Qed.

(** C2 (a defect of the code): a record in a closed status ("Release
    Pending") whose resolution is the empty string -- not "Obsolete" -- is
    deselected, since the test is for a substring of "Obsolete". *)
Theorem should_deselect_jr_blank_resolution :
  py_get (heap blank_world) (VRef 1) "status" = Ok (VStr "Release Pending") /\
  py_get (heap blank_world) (VRef 1) "resolution" = Ok (VStr "") /\
  should_deselect_jr true no_tracker 1000 "JR:SAT-20548" (VRef 1) blank_world
  = (Ok (VBool true), blank_world).
Proof.
  split; [reflexivity|]. split; [reflexivity|].
  apply (should_deselect_jr_closed true no_tracker 1000 "JR:SAT-20548" (VRef 1)
           blank_world (VRef 1) blank_world (VRef 1) (VStr "Release Pending") "");
    reflexivity.
Qed.

(** *** [get_data_jr] and the retry policy *)

Lemma after_requests_twice n s n' s' w :
  after_requests n' s' (after_requests n s w) = after_requests (n + n') (s + s') w.
Proof. unfold after_requests; cbn. f_equal; lia. Qed.

Lemma sleep_after_requests n s seconds w :
  snd (sleep seconds (after_requests n s w)) = after_requests n (s + seconds) w.
Proof. unfold sleep, after_requests; cbn. f_equal; lia. Qed.

Lemma alloc_all_spec ds : forall w,
  exists w',
    alloc_all ds w = (Ok (VRef <$> seq (next w) (length ds)), w') /\
    next w' = next w + length ds /\
    requests_sent w' = requests_sent w /\
    seconds_slept w' = seconds_slept w /\
    (forall a, a < next w -> heap w' !! a = heap w !! a) /\
    (forall i d, ds !! i = Some d -> heap w' !! (next w + i) = Some d).
Proof.
  induction ds as [|d ds IH]; intros w.
  - exists w. cbn. repeat split; auto. intros i d Hd. discriminate Hd.
  - cbn [alloc_all]. unfold bind at 1. unfold alloc at 1.
    set (w1 := World _ _ _ _ _ _ _).
    destruct (IH w1) as (w' & Ha & Hn & Hr & Hs & Hf & Hh).
    exists w'. unfold bind. rewrite Ha. cbn [ret length seq fmap list_fmap].
    subst w1. cbn [next requests_sent seconds_slept heap] in *.
    repeat split; try lia; auto.
    + intros a Ha'. rewrite Hf by lia. apply lookup_insert_ne. lia.
    + intros [|i] d' Hd'.
      * cbn in Hd'. injection Hd' as <-. rewrite Nat.add_0_r, Hf by lia.
        apply lookup_insert_eq.
      * replace (next w + S i) with (S (next w) + i) by lia. apply Hh. exact Hd'.
Qed.

Lemma default_jr_is_open h a number :
  h !! a = Some (default_jr number) ->
  py_get h (VRef a) "id" = Ok (VStr number) /\
  py_get h (VRef a) "is_open" = Ok (VBool true).
Proof.
  intros H. unfold py_get, deref. rewrite H. split; reflexivity.
Qed.

Section Fetch.
Variable tracker : nat -> list string -> result (option (list dict)).

Lemma cache_branch_skipped {A} cached_data (k1 : cache -> A) (k2 : A) :
  no_cache cached_data ->
  match cached_data with Some ((_ :: _) as items) => k1 items | _ => k2 end = k2.
Proof. intros [-> | ->]; reflexivity. Qed.

Lemma get_data_jr_body_fails jr_numbers cached_data w e :
  jr_numbers <> [] -> no_memo jr_numbers w -> no_cache cached_data ->
  tracker (requests_sent w) jr_numbers = Raise e ->
  get_data_jr_body true tracker jr_numbers cached_data w =
  (Raise e, after_requests 1 0 w).
Proof.
  intros Hn Hm Hc Ht. unfold get_data_jr_body.
  destruct jr_numbers as [|x l]; [congruence|].
  unfold no_memo in Hm. rewrite Hm, (cache_branch_skipped _ _ _ Hc).
  cbn [negb]. unfold bind, requests_get. rewrite Ht. unfold after_requests.
  rewrite Nat.add_1_r, Nat.add_0_r. reflexivity.
Qed.

(** However many attempts the policy allows: if the tracker fails each of
    them, the outcome is [RetryError], after one request per attempt and a
    wait between two attempts. *)
Lemma retry_loop_fails jr_numbers cached_data w wait_fixed :
  jr_numbers <> [] -> no_memo jr_numbers w -> no_cache cached_data ->
  forall attempts n s,
  (forall k, k < S attempts -> raises (tracker (requests_sent w + n + k) jr_numbers)) ->
  retry_loop (S attempts) wait_fixed
    (get_data_jr_body true tracker jr_numbers cached_data) (after_requests n s w) =
  (Raise RetryError, after_requests (n + S attempts) (s + attempts * wait_fixed) w).
Proof.
  intros Hn Hm Hc. induction attempts as [|attempts IH]; intros n s Hf.
  - destruct (Hf 0) as [e He]; [lia|]. rewrite Nat.add_0_r in He. cbn [retry_loop].
    rewrite (get_data_jr_body_fails _ _ _ e Hn); auto.
    rewrite after_requests_twice. reflexivity.
  - destruct (Hf 0) as [e He]; [lia|]. rewrite Nat.add_0_r in He.
    change (retry_loop (S (S attempts)) wait_fixed ?body ?w0) with
      (match body w0 with
       | (Ok a, w') => (Ok a, w')
       | (Raise _, w') => retry_loop (S attempts) wait_fixed body (snd (sleep wait_fixed w'))
       end).
    rewrite (get_data_jr_body_fails _ _ _ e Hn); auto.
    rewrite after_requests_twice, sleep_after_requests, IH.
    + f_equal. f_equal; cbn; lia.
    + intros k Hk. replace (requests_sent w + (n + 1) + k)
        with (requests_sent w + n + S k) by lia. apply Hf. lia.
Qed.

Lemma get_data_jr_failing_tracker jr_numbers cached_data w :
  jr_numbers <> [] -> no_memo jr_numbers w -> no_cache cached_data ->
  (forall k, k < 4 -> raises (tracker (requests_sent w + k) jr_numbers)) ->
  get_data_jr true tracker jr_numbers cached_data w =
  (Raise RetryError, after_requests 4 60 w).
Proof.
  intros Hn Hm Hc Hf. unfold get_data_jr, retry.
  replace w with (after_requests 0 0 w) at 1
    by (destruct w; unfold after_requests; cbn; f_equal; lia).
  rewrite (retry_loop_fails _ _ _ _ Hn Hm Hc); [reflexivity|].
  intros k Hk. rewrite Nat.add_0_r. now apply Hf.
Qed.

Lemma get_data_jr_without_api_key jr_numbers cached_data w :
  jr_numbers <> [] -> no_memo jr_numbers w -> no_cache cached_data ->
  exists refs w',
    get_data_jr false tracker jr_numbers cached_data w = (Ok (VList refs), w') /\
    requests_sent w' = requests_sent w /\
    Forall2 (fun number ref =>
               py_get (heap w') ref "id" = Ok (VStr number) /\
               py_get (heap w') ref "is_open" = Ok (VBool true)) jr_numbers refs.
Proof.
  intros Hn Hm Hc.
  destruct (alloc_all_spec (default_jr <$> jr_numbers) w)
    as (w' & Ha & _ & Hr & _ & _ & Hh).
  exists (VRef <$> seq (next w) (length (default_jr <$> jr_numbers))), w'.
  split; [|split; [exact Hr|]].
  - unfold get_data_jr, retry. cbn [retry_loop]. unfold get_data_jr_body.
    destruct jr_numbers as [|x l]; [congruence|].
    unfold no_memo in Hm. rewrite Hm, (cache_branch_skipped _ _ _ Hc).
    cbn [negb]. unfold bind. rewrite Ha. reflexivity.
  - rewrite length_fmap. apply Forall2_same_length_lookup_2.
    + now rewrite length_fmap, length_seq.
    + intros i number ref Hi Href.
      rewrite list_lookup_fmap in Href.
      apply fmap_Some in Href as (a & Hs & ->).
      apply lookup_seq in Hs as [-> _].
      apply default_jr_is_open. apply Hh.
      rewrite list_lookup_fmap, Hi. reflexivity.
Qed.

(** X7: with a cache that has entries, the records come from the cache and
    no request is sent. *)
Lemma get_data_jr_cached api_key jr_numbers item items w :
  jr_numbers <> [] -> no_memo jr_numbers w ->
  get_data_jr api_key tracker jr_numbers (Some (item :: items)) w =
  (Ok (VList (omap snd (item :: items))), w).
Proof.
  intros Hn Hm. unfold get_data_jr, retry. cbn [retry_loop]. unfold get_data_jr_body.
  destruct jr_numbers as [|x l]; [congruence|].
  unfold no_memo in Hm. rewrite Hm. reflexivity.
Qed.

(** C4, as the code has it: when the tracker fails all four attempts,
    [get_data_jr] raises [RetryError] after four requests and three waits of
    20 seconds; one default record per requested number, each with [is_open]
    true and no request sent, is what it returns when no API key is
    configured. *)
Theorem get_data_jr_outage_raises jr_numbers cached_data w :
  jr_numbers <> [] -> no_memo jr_numbers w -> no_cache cached_data ->
  (forall k, k < 4 -> raises (tracker (requests_sent w + k) jr_numbers)) ->
  get_data_jr true tracker jr_numbers cached_data w =
  (Raise RetryError, after_requests 4 60 w) /\
  (exists refs w',
     get_data_jr false tracker jr_numbers cached_data w = (Ok (VList refs), w') /\
     requests_sent w' = requests_sent w /\
     Forall2 (fun number ref =>
                py_get (heap w') ref "id" = Ok (VStr number) /\
                py_get (heap w') ref "is_open" = Ok (VBool true)) jr_numbers refs).
Proof.
  intros Hn Hm Hc Hf. split.
  - now apply get_data_jr_failing_tracker.
  - now apply get_data_jr_without_api_key.
Qed.

End Fetch.

Lemma get_data_jr_outage_raises_witness :
  get_data_jr true no_tracker ["SAT-20548"] None (empty_world ∅ 1) =
  (Raise RetryError, after_requests 4 60 (empty_world ∅ 1)) /\
  (exists refs w',
     get_data_jr false no_tracker ["SAT-20548"] None (empty_world ∅ 1)
     = (Ok (VList refs), w') /\
     requests_sent w' = requests_sent (empty_world ∅ 1) /\
     Forall2 (fun number ref =>
                py_get (heap w') ref "id" = Ok (VStr number) /\
                py_get (heap w') ref "is_open" = Ok (VBool true)) ["SAT-20548"] refs).
Proof.
  apply (get_data_jr_outage_raises no_tracker ["SAT-20548"] None (empty_world ∅ 1));
    [discriminate | reflexivity | left; reflexivity
    | intros k _; exists RequestException; reflexivity].
Defined.

(** C4 as stated fails: with an API key and a tracker that cannot be reached,
    the fetch for one number ends in [RetryError] (four requests, 60 seconds
    of waiting), and so does the lookup of an issue that is in no cache. *)
Lemma get_data_jr_unreachable_tracker :
  get_data_jr true no_tracker ["SAT-20548"] None (empty_world ∅ 1)
  = (Raise RetryError, World ∅ 1 None ∅ ∅ 4 60) /\
  fst (is_open_jr [6%N; 11%N] true no_tracker 1000 "JR:SAT-20548" VNone (empty_world ∅ 1))
  = Raise RetryError.
Proof. split; reflexivity. Qed.

(** *** Cached resolution sends no request *)

Lemma quiet_ret {A} (a : A) : quiet (ret a).
Proof. intros w. reflexivity. Qed.

Lemma quiet_throw {A} e : quiet (@throw A e).
Proof. intros w. reflexivity. Qed.

Lemma quiet_bind {A B} (m : M A) (k : A -> M B) :
  quiet m -> (forall a, quiet (k a)) -> quiet (bind m k).
Proof.
  intros Hm Hk w. unfold bind. specialize (Hm w).
  destruct (m w) as [[a|e] w']; cbn in *; [|exact Hm].
  rewrite (Hk a w'). exact Hm.
Qed.

Lemma quiet_reading {A} (f : store -> result A) : quiet (reading f).
Proof. intros w. reflexivity. Qed.

Lemma quiet_setitem jr key v : quiet (setitem jr key v).
Proof. intros w. unfold setitem. destruct jr; reflexivity. Qed.

Lemma quiet_alloc d : quiet (alloc d).
Proof. intros w. reflexivity. Qed.

Lemma quiet_alloc_all ds : quiet (alloc_all ds).
Proof.
  induction ds as [|d ds IH]; cbn [alloc_all]; [apply quiet_ret|].
  apply quiet_bind; [apply quiet_alloc|]. intros r.
  apply quiet_bind; [exact IH|]. intros rs. apply quiet_ret.
Qed.

Lemma quiet_try_except {A} (m : M A) caught handler :
  quiet m -> quiet handler -> quiet (try_except m caught handler).
Proof.
  intros Hm Hh w. unfold try_except. specialize (Hm w).
  destruct (m w) as [[a|e] w']; cbn in *; [exact Hm|].
  destruct (caught e); cbn; [|exact Hm]. rewrite (Hh w'). exact Hm.
Qed.

Lemma quiet_retry_loop {A} n wait_fixed (body : M A) :
  quiet body -> quiet (retry_loop n wait_fixed body).
Proof.
  intros Hb. induction n as [|n IH]; intros w; cbn [retry_loop]; [reflexivity|].
  specialize (Hb w). destruct (body w) as [[a|e] w']; cbn in *; [exact Hb|].
  destruct n; [exact Hb|]. rewrite IH. exact Hb.
Qed.

Section Cached.
Variable sat_version : Version.
Variable api_key : bool.
Variable tracker : nat -> list string -> result (option (list dict)).
Variable frames : nat.
Variable item : string * option value.
Variable items : list (string * option value).

Lemma quiet_get_data_jr jr_numbers :
  quiet (get_data_jr api_key tracker jr_numbers (Some (item :: items))).
Proof.
  apply quiet_retry_loop. intros w. unfold get_data_jr_body.
  destruct jr_numbers; [reflexivity|].
  destruct (truthy _ _); reflexivity.
Qed.

Lemma quiet_get_single_jr number :
  quiet (get_single_jr api_key tracker number (Some (item :: items))).
Proof.
  intros w. unfold get_single_jr. cbn [default].
  destruct (truthy (heap w) _); [reflexivity|].
  revert w. apply quiet_bind.
  - apply quiet_try_except.
    + destruct (cache_lookup _ _) as [[data|]|]; [apply quiet_ret | apply quiet_throw ..].
    + apply quiet_bind; [apply quiet_get_data_jr|].
      intros jr_data w. destruct (truthy _ _); reflexivity.
  - intros jr_data. apply quiet_bind; [intros w; reflexivity|].
    intros _ w. destruct (truthy _ _); reflexivity.
Qed.

Lemma quiet_collect_dupes depth : forall jr collected_data,
  quiet (collect_dupes api_key tracker depth jr collected_data (Some (item :: items))).
Proof.
  induction depth as [|depth IH]; intros jr collected_data; cbn [collect_dupes];
    [apply quiet_throw|].
  cbn [default].
  apply quiet_bind; [apply quiet_reading|]. intros resolution.
  destruct (eq_str resolution "Duplicate"); [|apply quiet_ret].
  apply quiet_bind; [apply quiet_reading|]. intros dupe_of.
  apply quiet_bind; [apply quiet_get_single_jr|]. intros dupe_data.
  apply quiet_bind; [apply quiet_setitem|]. intros _.
  apply quiet_bind; [apply quiet_reading|]. intros dupe_of'.
  destruct (has_key _ _); [apply quiet_ret | apply IH].
Qed.

Lemma quiet_is_open_jr_of_record issue data w id :
  py_getitem (heap w) data "id" = Ok id ->
  requests_sent (snd (is_open_jr sat_version api_key tracker frames issue data w))
  = requests_sent w /\
  heap (snd (is_open_jr sat_version api_key tracker frames issue data w)) = heap w.
Proof.
  intros Hid. assert (truthy (heap w) data = true) as Ht.
  { destruct data; try discriminate Hid. cbn in Hid |- *.
    destruct (deref (heap w) a !! "id") eqn:Hl; [|discriminate Hid].
    unfold dict_is_empty. rewrite bool_decide_eq_false_2; [reflexivity|].
    intros He. rewrite He in Hl. discriminate Hl. }
  unfold is_open_jr, bind. rewrite (try_from_cache_given api_key tracker _ _ _ Ht).
  split; reflexivity.
Qed.

Lemma quiet_collect_each jr_data : forall collected_data,
  quiet (collect_each sat_version api_key tracker frames jr_data collected_data
           (Some (item :: items))).
Proof.
  induction jr_data as [|data rest IH]; intros collected_data; cbn [collect_each];
    [apply quiet_ret|].
  apply quiet_bind; [apply quiet_collect_dupes|]. intros collected_data'.
  intros w. unfold bind at 1. unfold reading.
  destruct (py_getitem (heap w) data "id") as [id|e] eqn:Hid; [|reflexivity].
  unfold bind at 1.
  destruct (quiet_is_open_jr_of_record ("JR:" ++ format id) data w id Hid) as [Hq _].
  destruct (is_open_jr _ _ _ _ _ data w) as [[open|e] w1]; cbn in Hq |- *; [|exact Hq].
  rewrite <- Hq.
  apply (quiet_bind _ _ (quiet_setitem data "is_open" open) (fun _ => IH _)).
Qed.

(** X5: with a cache that has entries, [collect_data_jr] sends no request,
    whatever it collects and however it ends. *)
Theorem collect_data_jr_cached_is_quiet collected_data :
  quiet (collect_data_jr sat_version api_key tracker frames collected_data
           (Some (item :: items))).
Proof.
  unfold collect_data_jr.
  apply quiet_bind; [apply quiet_get_data_jr|]. intros jr_data.
  apply quiet_bind; [|intros l; apply quiet_collect_each].
  intros w. destruct (truthy _ _); reflexivity.
Qed.
End Cached.

(** *** Instances of the general facts *)

Lemma is_open_jr_never_falsy_witness :
  truthy (heap fixed_world) (VVersion [0%N]) = true.
Proof.
  apply (is_open_jr_never_falsy [6%N; 11%N] true no_tracker 1000 "JR:SAT-20548"
           (VRef 1) fixed_world (VRef 1) fixed_world (VVersion [0%N]) fixed_world);
    reflexivity.
Defined.

Lemma follow_duplicates_returns_witness :
  exists n, n < 1000 /\ duplicate_chain three_chain (VRef 1) n (VRef 3).
Proof.
  apply (follow_duplicates_returns three_chain 1000 (VRef 1) (VRef 3)). reflexivity.
Defined.

Lemma get_data_jr_cached_witness :
  get_data_jr true no_tracker ["SAT-20548"] (Some reloaded_cache) reloaded_world
  = (Ok (VList [VRef 1; VRef 2]), reloaded_world).
Proof.
  apply (get_data_jr_cached no_tracker true ["SAT-20548"]
           ("JR:SAT-20548", Some (VRef 1)) [("not ready", Some (VRef 2)); ("_meta", None)]
           reloaded_world); [discriminate | reflexivity].
Defined.

(** *** The order of versions *)

Lemma tuple_ltb_irrefl a : tuple_ltb a a = false.
Proof.
  induction a as [|x a IH]; cbn; [reflexivity|].
  rewrite N.ltb_irrefl. exact IH.
Qed.

Lemma tuple_ltb_cotrans a : forall b c,
  tuple_ltb a b = true -> tuple_ltb a c = true \/ tuple_ltb c b = true.
Proof.
  induction a as [|x a IH]; intros [|y b] [|z c]; cbn; try discriminate; auto;
    repeat match goal with
           | |- context [N.ltb ?p ?q] => destruct (N.ltb_spec p q)
           end; try lia; try discriminate; auto.
Qed.

Lemma tuple_ltb_asym a : forall b,
  tuple_ltb a b = true -> tuple_ltb b a = false.
Proof.
  induction a as [|x a IH]; intros [|y b]; cbn; try discriminate; auto;
    repeat match goal with
           | |- context [N.ltb ?p ?q] => destruct (N.ltb_spec p q)
           end; try lia; try discriminate; auto.
Qed.

Lemma version_lt_asym a b : version_lt a b = true -> version_lt b a = false.
Proof. apply tuple_ltb_asym. Qed.

Lemma version_lt_irrefl a : version_lt a a = false.
Proof. apply tuple_ltb_irrefl. Qed.

Lemma version_lt_cotrans a b c :
  version_lt a b = true -> version_lt a c = true \/ version_lt c b = true.
Proof. apply tuple_ltb_cotrans. Qed.

Lemma min2_either m x : min2 m x = m \/ min2 m x = x.
Proof. unfold min2. destruct (version_lt x m); auto. Qed.

Lemma min2_le_l m x : version_lt m (min2 m x) = false.
Proof.
  unfold min2. destruct (version_lt x m) eqn:H.
  - now apply version_lt_asym.
  - apply version_lt_irrefl.
Qed.

Lemma min2_le_r m x : version_lt x (min2 m x) = false.
Proof.
  unfold min2. destruct (version_lt x m) eqn:H.
  - apply version_lt_irrefl.
  - exact H.
Qed.

Lemma version_le_trans a b c :
  version_lt b a = false -> version_lt c b = false -> version_lt c a = false.
Proof.
  intros Hab Hbc. destruct (version_lt c a) eqn:H; [|reflexivity].
  destruct (version_lt_cotrans _ _ b H); congruence.
Qed.

Lemma fold_min2_le_acc xs : forall acc,
  version_lt acc (fold_left min2 xs acc) = false.
Proof.
  induction xs as [|y xs IH]; intros acc; cbn; [apply version_lt_irrefl|].
  eapply version_le_trans; [apply IH | apply min2_le_l].
Qed.

Lemma fold_min2_le xs : forall acc v,
  v ∈ acc :: xs -> version_lt v (fold_left min2 xs acc) = false.
Proof.
  induction xs as [|y xs IH]; intros acc v Hin; cbn.
  - apply list_elem_of_singleton in Hin as ->. apply version_lt_irrefl.
  - apply elem_of_cons in Hin as [-> | Hin].
    + eapply version_le_trans; [apply fold_min2_le_acc | apply min2_le_l].
    + apply elem_of_cons in Hin as [-> | Hin].
      * eapply version_le_trans; [apply fold_min2_le_acc | apply min2_le_r].
      * apply IH. now right.
Qed.

Lemma fold_min2_in xs : forall acc, fold_left min2 xs acc ∈ acc :: xs.
Proof.
  induction xs as [|y xs IH]; intros acc; cbn; [left|].
  specialize (IH (min2 acc y)). apply elem_of_cons in IH as [-> | IH].
  - destruct (min2_either acc y) as [-> | ->]; [left | right; left].
  - right; now right.
Qed.

Lemma below_min sat x xs :
  version_lt sat (fold_left min2 xs x) = forallb (version_lt sat) (x :: xs).
Proof.
  destruct (forallb (version_lt sat) (x :: xs)) eqn:Hall.
  - rewrite forallb_forall in Hall. apply Hall.
    apply list_elem_of_In, fold_min2_in.
  - destruct (version_lt sat (fold_left min2 xs x)) eqn:H; [|reflexivity].
    assert (forallb (version_lt sat) (x :: xs) = true); [|congruence].
    apply forallb_forall. intros v Hv%list_elem_of_In.
    destruct (version_lt_cotrans _ _ v H) as [H1|H1]; [exact H1|].
    now rewrite fold_min2_le in H1.
Qed.

(** *** What [is_open_jr] and [should_deselect_jr] decide *)

Lemma mapM_as_version vs : mapM as_version (VVersion <$> vs) = Some vs.
Proof.
  apply mapM_Some. induction vs as [|v vs IH]; constructor; auto.
Qed.

Lemma min_version_list h v vs :
  min_version h (VList (VVersion <$> v :: vs)) = Ok (fold_left min2 vs v).
Proof.
  unfold min_version. rewrite mapM_as_version. reflexivity.
Qed.

Section Verdict.
Variable sat_version : Version.
Variable api_key : bool.
Variable tracker : nat -> list string -> result (option (list dict)).
Variable frames : nat.

(** X2: for a record without a stored [is_open] whose duplicate chain ends,
    within the call depth allowed, in a record with a string resolution and a
    non-empty list of fix versions, [is_open_jr] returns [True] exactly when
    the status is in the open set, or the status is in the closed set and
    the resolution is a substring of "Obsolete", or the server version is
    below every fix version; otherwise it returns [Version('0')]. *)
Theorem is_open_jr_verdict issue data w jr w' n r status resolution v vs :
  try_from_cache api_key tracker issue data w = (Ok jr, w') ->
  py_get (heap w') jr "is_open" = Ok VNone ->
  duplicate_chain (heap w') jr n r -> n < frames ->
  py_get (heap w') r "status" = Ok status ->
  py_get (heap w') r "resolution" = Ok (VStr resolution) ->
  py_get (heap w') r "fixVersions" = Ok (VList (VVersion <$> v :: vs)) ->
  is_open_jr sat_version api_key tracker frames issue data w =
  (Ok (if in_tuple status OPEN_STATUSES
          || in_tuple status CLOSED_STATUSES && substring_of resolution WONTFIX_RESOLUTIONS
          || forallb (version_lt sat_version) (v :: vs)
       then VBool true else VVersion [0%N]), w').
Proof.
  intros Ht Hm Hch Hn Hs Hr Hfv.
  pose proof (follow_duplicates_chain _ _ _ _ _ Hch Hn) as Hf.
  rewrite (is_open_jr_computed _ _ _ _ _ _ _ _ _ Ht Hm), Hf. cbn [rbind].
  rewrite Hs. cbn [rbind].
  destruct (in_tuple status OPEN_STATUSES); [reflexivity|]. cbn [orb].
  assert (rbind (if in_tuple status CLOSED_STATUSES
                 then rbind (py_get (heap w') r "resolution") (fun resolution =>
                      in_str resolution WONTFIX_RESOLUTIONS)
                 else Ok false) =
          rbind (Ok (in_tuple status CLOSED_STATUSES
                     && substring_of resolution WONTFIX_RESOLUTIONS))) as ->.
  { destruct (in_tuple status CLOSED_STATUSES); [rewrite Hr|]; reflexivity. }
  cbn [rbind].
  destruct (in_tuple status CLOSED_STATUSES && _); [reflexivity|]. cbn [orb].
  rewrite Hfv. cbn [rbind]. rewrite min_version_list. cbn [rbind].
  rewrite below_min. destruct (forallb _ _); reflexivity.
Qed.

(** X3: for a record without a stored [is_deselected] whose duplicate chain
    ends, within the call depth allowed, in a record with a string
    resolution, [should_deselect_jr] returns whether the status is in the
    closed set and the resolution is a substring of "Obsolete". *)
Theorem should_deselect_jr_verdict issue data w jr w' n r status resolution :
  try_from_cache api_key tracker issue data w = (Ok jr, w') ->
  py_get (heap w') jr "is_deselected" = Ok VNone ->
  duplicate_chain (heap w') jr n r -> n < frames ->
  py_get (heap w') r "status" = Ok status ->
  py_get (heap w') r "resolution" = Ok (VStr resolution) ->
  should_deselect_jr api_key tracker frames issue data w =
  (Ok (VBool (in_tuple status CLOSED_STATUSES
              && substring_of resolution WONTFIX_RESOLUTIONS)), w').
Proof.
  intros Ht Hm Hch Hn Hs Hr.
  pose proof (follow_duplicates_chain _ _ _ _ _ Hch Hn) as Hf.
  rewrite (should_deselect_jr_computed _ _ _ _ _ _ _ _ Ht Hm), Hf. cbn [rbind].
  rewrite Hs. cbn [rbind].
  destruct (in_tuple status CLOSED_STATUSES); [rewrite Hr|]; reflexivity.
Qed.
End Verdict.

(** X4: the record [follow_duplicates] returns has no (truthy) [dupe_data],
    and following it again returns it, at any call depth above zero. *)
Theorem follow_duplicates_idempotent h frames : forall jr last,
  follow_duplicates frames h jr = Ok last ->
  no_dupe_data h last /\
  forall frames', follow_duplicates (S frames') h last = Ok last.
Proof.
  induction frames as [|frames IH]; intros jr last; cbn; [discriminate|].
  destruct (py_get h jr "dupe_data") as [d|] eqn:Hg; [|discriminate].
  destruct (truthy h d) eqn:Ht; [apply IH|].
  intros [= <-]. split; [exists d; auto|].
  intros frames'. cbn. rewrite Hg, Ht. reflexivity.
Qed.

Lemma is_open_jr_verdict_witness :
  is_open_jr [6%N; 11%N] true no_tracker 1000 "JR:SAT-20548" (VRef 1) fixed_world
  = (Ok (VVersion [0%N]), fixed_world).
Proof.
  apply (is_open_jr_verdict [6%N; 11%N] true no_tracker 1000 "JR:SAT-20548" (VRef 1)
           fixed_world (VRef 1) fixed_world 0 (VRef 1) (VStr "Closed") "Done"
           [6%N; 10%N] []);
    try reflexivity; [eapply chain_end; reflexivity | lia].
Defined.

Lemma should_deselect_jr_verdict_witness :
  should_deselect_jr true no_tracker 1000 "JR:SAT-20548" (VRef 1) obsolete_world
  = (Ok (VBool true), obsolete_world).
Proof.
  apply (should_deselect_jr_verdict true no_tracker 1000 "JR:SAT-20548" (VRef 1)
           obsolete_world (VRef 1) obsolete_world 0 (VRef 1) (VStr "Closed") "Obsolete");
    try reflexivity; [eapply chain_end; reflexivity | lia].
Defined.

Lemma follow_duplicates_idempotent_witness :
  no_dupe_data three_chain (VRef 3) /\
  forall frames', follow_duplicates (S frames') three_chain (VRef 3) = Ok (VRef 3).
Proof.
  apply (follow_duplicates_idempotent three_chain 1000 (VRef 1) (VRef 3)). reflexivity.
Defined.

(** *** Retries, bounds and the memo of [get_data_jr] *)

(** [sorted] does not depend on the order of its argument. *)
Lemma leb_trans s1 : forall s2 s3,
  String.leb s1 s2 = true -> String.leb s2 s3 = true -> String.leb s1 s3 = true.
Proof.
  unfold String.leb.
  induction s1 as [|c1 s1 IH]; intros [|c2 s2] [|c3 s3]; cbn; try discriminate; auto.
  unfold Ascii.compare.
  destruct (N.compare_spec (Ascii.N_of_ascii c1) (Ascii.N_of_ascii c2)) as [E12|L12|G12];
  destruct (N.compare_spec (Ascii.N_of_ascii c2) (Ascii.N_of_ascii c3)) as [E23|L23|G23];
  destruct (N.compare_spec (Ascii.N_of_ascii c1) (Ascii.N_of_ascii c3)) as [E13|L13|G13];
    try discriminate; try lia; auto.
  apply IH.
Qed.

#[local] Instance str_le_trans : Transitive str_le.
Proof. intros x y z. apply leb_trans. Qed.
#[local] Instance str_le_antisym : AntiSymm (=) str_le.
Proof. intros x y. apply String.leb_antisym. Qed.
#[local] Instance str_le_total : Total str_le.
Proof. intros x y. apply String.leb_total. Qed.

Lemma sorted_Permutation l l' : l ≡ₚ l' -> sorted l = sorted l'.
Proof.
  intros Hp. unfold sorted.
  apply (Sorted_unique str_le); try apply Sorted_merge_sort; try apply _.
  now rewrite !merge_sort_Permutation.
Qed.

Section Retry.
Variable tracker : nat -> list string -> result (option (list dict)).

Lemma get_data_jr_body_succeeds jr_numbers cached_data w bugs :
  jr_numbers <> [] -> no_memo jr_numbers w -> no_cache cached_data ->
  tracker (requests_sent w) jr_numbers = Ok (Some bugs) ->
  exists w',
    get_data_jr_body true tracker jr_numbers cached_data w =
      (Ok (VList (VRef <$> seq (next w) (length bugs))), w') /\
    requests_sent w' = S (requests_sent w) /\
    seconds_slept w' = seconds_slept w /\
    get_data_memo w' !! sorted jr_numbers
      = Some (VList (VRef <$> seq (next w) (length bugs))) /\
    (forall i d, bugs !! i = Some d -> heap w' !! (next w + i) = Some d).
Proof.
  intros Hn Hm Hc Ht. unfold get_data_jr_body.
  destruct jr_numbers as [|x l]; [congruence|].
  unfold no_memo in Hm. rewrite Hm, (cache_branch_skipped _ _ _ Hc).
  cbn [negb]. unfold bind at 1 2. unfold requests_get. rewrite Ht.
  set (w1 := World _ _ _ _ _ _ _).
  destruct (alloc_all_spec bugs w1) as (w2 & Ha & _ & Hr & Hs & _ & Hh).
  rewrite Ha. subst w1. cbn [next requests_sent seconds_slept] in *.
  eexists. split; [reflexivity|]. cbn. rewrite lookup_insert_eq. auto.
Qed.

Lemma retry_loop_recovers jr_numbers cached_data w wait_fixed bugs :
  jr_numbers <> [] -> no_memo jr_numbers w -> no_cache cached_data ->
  forall j attempts n s,
  j <= attempts ->
  (forall k, k < j -> raises (tracker (requests_sent w + n + k) jr_numbers)) ->
  tracker (requests_sent w + n + j) jr_numbers = Ok (Some bugs) ->
  exists w',
    retry_loop (S attempts) wait_fixed
      (get_data_jr_body true tracker jr_numbers cached_data) (after_requests n s w)
    = (Ok (VList (VRef <$> seq (next w) (length bugs))), w') /\
    requests_sent w' = requests_sent w + n + j + 1 /\
    seconds_slept w' = seconds_slept w + s + j * wait_fixed /\
    get_data_memo w' !! sorted jr_numbers
      = Some (VList (VRef <$> seq (next w) (length bugs))) /\
    (forall i d, bugs !! i = Some d -> heap w' !! (next w + i) = Some d).
Proof.
  intros Hn Hm Hc. induction j as [|j IH]; intros attempts n s Hj Hf Hok.
  - rewrite Nat.add_0_r in Hok.
    destruct (get_data_jr_body_succeeds jr_numbers cached_data (after_requests n s w) bugs)
      as (w' & Hb & Hr & Hs & Hmemo & Hh); auto.
    exists w'. cbn [retry_loop]. rewrite Hb. cbn in Hr, Hs.
    repeat split; auto; lia.
  - destruct attempts as [|attempts]; [lia|].
    destruct (Hf 0) as [e He]; [lia|]. rewrite Nat.add_0_r in He.
    change (retry_loop (S (S attempts)) wait_fixed ?body ?w0) with
      (match body w0 with
       | (Ok a, w') => (Ok a, w')
       | (Raise _, w') => retry_loop (S attempts) wait_fixed body (snd (sleep wait_fixed w'))
       end).
    rewrite (get_data_jr_body_fails _ _ _ _ e Hn); auto.
    rewrite after_requests_twice, sleep_after_requests.
    destruct (IH attempts (n + 1) (s + 0 + wait_fixed)) as (w' & Hb & Hr & Hs & Hrest).
    + lia.
    + intros k Hk. replace (requests_sent w + (n + 1) + k)
        with (requests_sent w + n + S k) by lia. apply Hf. lia.
    + replace (requests_sent w + (n + 1) + j) with (requests_sent w + n + S j) by lia.
      exact Hok.
    + exists w'. rewrite Hb. repeat split; try apply Hrest; lia.
Qed.

(** X10: when the tracker fails [j] times, [j] below 4, and then answers,
    [get_data_jr] returns the records of the answer, stored in order at fresh
    addresses, after [j + 1] requests and [j] waits of 20 seconds. *)
Theorem get_data_jr_recovers jr_numbers cached_data w j bugs :
  jr_numbers <> [] -> no_memo jr_numbers w -> no_cache cached_data ->
  j < 4 ->
  (forall k, k < j -> raises (tracker (requests_sent w + k) jr_numbers)) ->
  tracker (requests_sent w + j) jr_numbers = Ok (Some bugs) ->
  exists w',
    get_data_jr true tracker jr_numbers cached_data w
    = (Ok (VList (VRef <$> seq (next w) (length bugs))), w') /\
    requests_sent w' = requests_sent w + j + 1 /\
    seconds_slept w' = seconds_slept w + 20 * j /\
    (forall i d, bugs !! i = Some d -> heap w' !! (next w + i) = Some d).
Proof.
  intros Hn Hm Hc Hj Hf Hok. unfold get_data_jr, retry.
  assert (after_requests 0 0 w = w) as Hw
    by (destruct w; unfold after_requests; cbn; f_equal; lia).
  destruct (retry_loop_recovers jr_numbers cached_data w 20 bugs Hn Hm Hc j 3 0 0)
    as (w' & Hb & Hr & Hs & _ & Hh).
  - lia.
  - intros k Hk. rewrite Nat.add_0_r. now apply Hf.
  - rewrite Nat.add_0_r. exact Hok.
  - rewrite Hw in Hb. exists w'. split; [exact Hb|]. split; [lia|]. split; [lia|]. exact Hh.
Qed.

(** What one call can cost. *)
Lemma retry_loop_bounded {A} (body : M A) wait_fixed :
  (forall w, requests_sent w <= requests_sent (snd (body w)) <= S (requests_sent w) /\
             seconds_slept (snd (body w)) = seconds_slept w) ->
  forall n w,
    requests_sent w <= requests_sent (snd (retry_loop n wait_fixed body w))
      <= requests_sent w + n /\
    seconds_slept w <= seconds_slept (snd (retry_loop n wait_fixed body w))
      <= seconds_slept w + wait_fixed * (n - 1).
Proof.
  intros Hb. induction n as [|n IH]; intros w; cbn [retry_loop]; [cbn; lia|].
  specialize (Hb w). destruct (body w) as [[a|e] w1]; cbn [snd] in *; [lia|].
  destruct n as [|n]; [cbn [snd]; lia|].
  assert (requests_sent (snd (sleep wait_fixed w1)) = requests_sent w1 /\
          seconds_slept (snd (sleep wait_fixed w1)) = seconds_slept w1 + wait_fixed)
    as [Hr Hs] by (split; reflexivity).
  specialize (IH (snd (sleep wait_fixed w1))).
  replace (S (S n) - 1) with (S n) by lia. replace (S n - 1) with n in IH by lia.
  rewrite Nat.mul_succ_r. lia.
Qed.

Lemma requests_get_one jr_numbers w :
  requests_sent (snd (requests_get tracker jr_numbers w)) = S (requests_sent w) /\
  seconds_slept (snd (requests_get tracker jr_numbers w)) = seconds_slept w.
Proof.
  unfold requests_get.
  destruct (tracker (requests_sent w) jr_numbers) as [[bugs|]|e]; cbn; auto.
  set (w1 := World _ _ _ _ _ _ _).
  destruct (alloc_all_spec bugs w1) as (w2 & -> & _ & Hr & Hs & _). auto.
Qed.

Lemma get_data_jr_body_bounded api_key jr_numbers cached_data w :
  requests_sent w
    <= requests_sent (snd (get_data_jr_body api_key tracker jr_numbers cached_data w))
    <= S (requests_sent w) /\
  seconds_slept (snd (get_data_jr_body api_key tracker jr_numbers cached_data w))
    = seconds_slept w.
Proof.
  unfold get_data_jr_body. destruct jr_numbers as [|x l]; [cbn; lia|].
  destruct (truthy _ _); [cbn; lia|].
  set (rest := if negb api_key then _ else _).
  assert (requests_sent w <= requests_sent (snd rest) <= S (requests_sent w) /\
          seconds_slept (snd rest) = seconds_slept w) as Hrest.
  { subst rest. destruct api_key; cbn [negb]; unfold bind.
    - destruct (requests_get_one (x :: l) w) as [Hr Hs].
      destruct (requests_get tracker (x :: l) w) as [[data|e] w1]; cbn in *; lia.
    - destruct (alloc_all_spec (default_jr <$> x :: l) w) as (w2 & -> & _ & Hr & Hs & _).
      cbn. lia. }
  destruct cached_data as [[|item items]|]; try exact Hrest. cbn; lia.
Qed.

(** X11: whatever its arguments, the state and the tracker, one call of
    [get_data_jr] sends at most four requests and waits at most 60 seconds. *)
Theorem get_data_jr_bounded api_key jr_numbers cached_data w :
  requests_sent w
    <= requests_sent (snd (get_data_jr api_key tracker jr_numbers cached_data w))
    <= requests_sent w + 4 /\
  seconds_slept w
    <= seconds_slept (snd (get_data_jr api_key tracker jr_numbers cached_data w))
    <= seconds_slept w + 60.
Proof.
  unfold get_data_jr, retry.
  apply (retry_loop_bounded _ 20 (get_data_jr_body_bounded api_key jr_numbers cached_data) 4 w).
Qed.

(** What a call leaves in [CACHED_RESPONSES]. *)
Lemma retry_loop_returned {A} (body : M A) wait_fixed : forall n w a w',
  retry_loop n wait_fixed body w = (Ok a, w') -> exists w0, body w0 = (Ok a, w').
Proof.
  induction n as [|n IH]; intros w a w'; cbn [retry_loop]; [discriminate|].
  destruct (body w) as [[a0|e] w1] eqn:Hb.
  - intros [= <- <-]. eauto.
  - destruct n; [discriminate|]. apply IH.
Qed.

Lemma get_data_jr_body_memo jr_numbers cached_data w data w' :
  no_cache cached_data ->
  get_data_jr_body true tracker jr_numbers cached_data w = (Ok data, w') ->
  truthy (heap w') data = true ->
  jr_numbers <> [] /\ get_data_memo w' !! sorted jr_numbers = Some data.
Proof.
  intros Hc. unfold get_data_jr_body.
  destruct jr_numbers as [|x l].
  { intros [= <- <-]. discriminate. }
  destruct (truthy (heap w) _) eqn:Hm.
  - intros [= <- <-] _. split; [discriminate|].
    destruct (get_data_memo w !! sorted (x :: l)); [reflexivity | discriminate Hm].
  - rewrite (cache_branch_skipped _ _ _ Hc). cbn [negb]. unfold bind at 1.
    destruct (requests_get _ _ _) as [[d|e] w1]; [|discriminate].
    cbn. intros [= <- <-] _. split; [discriminate|]. apply lookup_insert_eq.
Qed.

Section Memo.
Variable api_key' : bool.
Variable tracker' : nat -> list string -> result (option (list dict)).

(** X12: a non-empty result [get_data_jr] has fetched with an API key and
    without a cache is returned again, with no request and no other change of
    state, for the same numbers in any order, whatever cache, API key and
    tracker the later call has. *)
Theorem get_data_jr_memoised jr_numbers cached_data w data w' jr_numbers' cached_data' :
  no_cache cached_data ->
  get_data_jr true tracker jr_numbers cached_data w = (Ok data, w') ->
  truthy (heap w') data = true ->
  jr_numbers' ≡ₚ jr_numbers ->
  get_data_jr api_key' tracker' jr_numbers' cached_data' w' = (Ok data, w').
Proof.
  intros Hc Hget Ht Hp. unfold get_data_jr, retry in Hget.
  apply retry_loop_returned in Hget as [w0 Hb].
  destruct (get_data_jr_body_memo _ _ _ _ _ Hc Hb Ht) as [Hn Hmemo].
  unfold get_data_jr, retry. cbn [retry_loop]. unfold get_data_jr_body.
  destruct jr_numbers' as [|x l].
  { apply Permutation_nil_l in Hp. congruence. }
  rewrite (sorted_Permutation _ _ Hp), Hmemo. cbn [from_option id]. rewrite Ht. reflexivity.
Qed.
End Memo.
End Retry.

Lemma get_data_jr_recovers_witness :
  exists w',
    get_data_jr true flaky_tracker ["SAT-20548"] None (empty_world ∅ 1)
    = (Ok (VList (VRef <$> seq 1 1)), w') /\
    requests_sent w' = 0 + 2 + 1 /\
    seconds_slept w' = 0 + 20 * 2 /\
    (forall i d, [closed_done_6_10] !! i = Some d -> heap w' !! (1 + i) = Some d).
Proof.
  apply (get_data_jr_recovers flaky_tracker ["SAT-20548"] None (empty_world ∅ 1) 2
           [closed_done_6_10]);
    [discriminate | reflexivity | left; reflexivity | lia | | reflexivity].
  intros k Hk. exists RequestException. cbn. unfold flaky_tracker.
  destruct k as [|[|k]]; [reflexivity | reflexivity | lia].
Defined.

(** *** [get_single_jr], and resolving without an API key *)

Lemma default_jr_not_empty number : dict_is_empty (default_jr number) = false.
Proof.
  unfold dict_is_empty, default_jr. apply bool_decide_eq_false_2, insert_non_empty.
Qed.

Section Single.
Variable api_key : bool.
Variable tracker : nat -> list string -> result (option (list dict)).

(** X13: a value [get_single_jr] returns is truthy; and either every later
    call for the number returns that same value and changes nothing, or the
    value is a fresh default record for the number. *)
Theorem get_single_jr_result number cached_data w v w' :
  get_single_jr api_key tracker number cached_data w = (Ok v, w') ->
  truthy (heap w') v = true /\
  ((forall api_key' tracker' cached_data',
      get_single_jr api_key' tracker' number cached_data' w' = (Ok v, w'))
   \/ (exists a, v = VRef a /\ heap w' !! a = Some (default_jr number))).
Proof.
  unfold get_single_jr at 1.
  destruct (truthy (heap w) (default VNone (get_single_memo w !! number))) eqn:Hm.
  - intros [= <- <-]. split; [exact Hm|]. left. intros api_key' tracker' cached_data'.
    unfold get_single_jr. rewrite Hm. reflexivity.
  - unfold bind at 1.
    destruct (try_except _ _ _ w) as [[jr_data|e] w1]; [|discriminate].
    unfold bind at 1, memo_get_single at 1.
    set (w2 := World _ _ _ _ _ _ _).
    destruct (truthy (heap w2) jr_data) eqn:Ht.
    + intros [= <- <-]. split; [exact Ht|]. left. intros api_key' tracker' cached_data'.
      unfold get_single_jr. subst w2. cbn [get_single_memo heap] in *.
      rewrite lookup_insert_eq. cbn [from_option id]. rewrite Ht. reflexivity.
    + unfold get_default_jr, alloc. intros [= <- <-]. cbn [heap truthy].
      unfold deref. rewrite lookup_insert_eq. cbn [from_option id].
      rewrite default_jr_not_empty. split; [reflexivity|]. right.
      eexists. split; [reflexivity|]. apply lookup_insert_eq.
Qed.

Lemma retry_loop_first {A} (body : M A) n wait_fixed w a w' :
  body w = (Ok a, w') -> retry_loop (S n) wait_fixed body w = (Ok a, w').
Proof. intros H. cbn [retry_loop]. rewrite H. reflexivity. Qed.

Lemma get_data_jr_defaults jr_numbers cached_data w :
  jr_numbers <> [] -> no_memo jr_numbers w -> no_cache cached_data ->
  get_data_jr false tracker jr_numbers cached_data w =
  (let* refs := alloc_all (default_jr <$> jr_numbers) in ret (VList refs)) w.
Proof.
  intros Hn Hm Hc.
  destruct (alloc_all_spec (default_jr <$> jr_numbers) w) as (w' & Ha & _).
  unfold bind. rewrite Ha. unfold get_data_jr, retry. apply retry_loop_first.
  unfold get_data_jr_body. destruct jr_numbers as [|x l]; [congruence|].
  unfold no_memo in Hm. rewrite Hm, (cache_branch_skipped _ _ _ Hc).
  cbn [negb]. unfold bind. rewrite Ha. reflexivity.
Qed.

Lemma get_single_jr_default number w :
  nothing_memoised number w ->
  get_single_jr false tracker number None w =
  (Ok (VRef (next w)),
   World (<[next w := default_jr number]> (heap w)) (S (next w)) (issue_data w)
         (get_data_memo w) (<[number := VRef (next w)]> (get_single_memo w))
         (requests_sent w) (seconds_slept w)).
Proof.
  intros [Hs Hd]. unfold get_single_jr. rewrite Hs. cbn [default from_option id truthy].
  unfold bind at 1. unfold try_except. cbn [cache_lookup find fmap option_fmap option_map throw
    caught_KeyError_TypeError].
  unfold bind at 1. rewrite get_data_jr_defaults;
    [| discriminate | unfold no_memo; rewrite Hd; reflexivity | right; reflexivity].
  cbn [fmap list_fmap alloc_all]. unfold bind at 1 2 3. unfold alloc at 1.
  cbn [alloc_all ret heap truthy index0].
  unfold bind at 1. unfold memo_get_single at 1. cbn [heap truthy].
  unfold deref. rewrite lookup_insert_eq. cbn [from_option id].
  rewrite default_jr_not_empty. reflexivity.
Qed.
End Single.

Section WithoutKey.
Variable sat_version : Version.
Variable tracker : nat -> list string -> result (option (list dict)).
Variable frames : nat.

Lemma try_from_cache_default issue w :
  not_collected issue w -> nothing_memoised (after_colon issue) w ->
  exists a w',
    try_from_cache false tracker issue VNone w = (Ok (VRef a), w') /\
    heap w' !! a = Some (default_jr (after_colon issue)) /\
    requests_sent w' = requests_sent w.
Proof.
  intros Hc Hm. unfold try_from_cache, try_except. cbn [truthy].
  unfold bind at 1, issue_data_lookup. unfold not_collected in Hc.
  destruct (issue_data w) as [index|] eqn:Hi.
  - rewrite Hc. cbn [heap truthy]. unfold deref at 1. rewrite lookup_insert_eq.
    cbn [from_option id caught_by_try_from_cache]. 
    change (dict_is_empty ∅) with true. cbn [negb].
    rewrite get_single_jr_default by exact Hm.
    eexists _, _. split; [reflexivity|]. cbn. rewrite lookup_insert_eq. auto.
  - cbn [caught_by_try_from_cache]. rewrite get_single_jr_default by exact Hm.
    eexists _, _. split; [reflexivity|]. cbn. rewrite lookup_insert_eq. auto.
Qed.

(** X14: without an API key, an issue that is neither collected nor
    memoised resolves to the default record: [is_open_jr] returns [True] and
    [should_deselect_jr] returns [False], with no request sent. *)
Theorem without_api_key_issue_is_open issue w :
  not_collected issue w -> nothing_memoised (after_colon issue) w ->
  (exists w', is_open_jr sat_version false tracker frames issue VNone w = (Ok (VBool true), w')
              /\ requests_sent w' = requests_sent w) /\
  (exists w', should_deselect_jr false tracker frames issue VNone w = (Ok (VBool false), w')
              /\ requests_sent w' = requests_sent w).
Proof.
  intros Hc Hm.
  destruct (try_from_cache_default issue w Hc Hm) as (a & w' & Ht & Hh & Hr).
  split; exists w'; (split; [|exact Hr]).
  - apply (is_open_jr_stored sat_version false tracker frames issue VNone w (VRef a) w'
             (VBool true) Ht); [|reflexivity].
    unfold py_get, deref. rewrite Hh. reflexivity.
  - apply (should_deselect_jr_stored false tracker frames issue VNone w (VRef a) w'
             (VBool false) Ht); [|reflexivity].
    unfold py_get, deref. rewrite Hh. reflexivity.
Qed.
End WithoutKey.

Lemma get_single_jr_result_witness :
  truthy (heap looked_up_world) (VRef 1) = true /\
  ((forall api_key' tracker' cached_data',
      get_single_jr api_key' tracker' "SAT-20548" cached_data' looked_up_world
      = (Ok (VRef 1), looked_up_world))
   \/ (exists a, VRef 1 = VRef a /\
                 heap looked_up_world !! a = Some (default_jr "SAT-20548"))).
Proof.
  apply (get_single_jr_result true no_tracker "SAT-20548" (Some reloaded_cache)
           reloaded_world (VRef 1) looked_up_world).
  reflexivity.
Defined.

Lemma get_data_jr_memoised_witness :
  get_data_jr false no_tracker ["SAT-1"; "SAT-2"] (Some reloaded_cache) fetched_world
  = (Ok (VList [VRef 1; VRef 2]), fetched_world).
Proof.
  apply (get_data_jr_memoised two_bug_tracker false no_tracker ["SAT-2"; "SAT-1"] None
           (empty_world ∅ 1) (VList [VRef 1; VRef 2]) fetched_world
           ["SAT-1"; "SAT-2"] (Some reloaded_cache));
    [left; reflexivity | reflexivity | reflexivity | apply Permutation_swap].
Defined.

Lemma without_api_key_issue_is_open_witness :
  (exists w', is_open_jr [6%N; 11%N] false no_tracker 1000 "JR:SAT-20548" VNone
                (empty_world ∅ 1) = (Ok (VBool true), w')
              /\ requests_sent w' = requests_sent (empty_world ∅ 1)) /\
  (exists w', should_deselect_jr false no_tracker 1000 "JR:SAT-20548" VNone
                (empty_world ∅ 1) = (Ok (VBool false), w')
              /\ requests_sent w' = requests_sent (empty_world ∅ 1)).
Proof.
  apply (without_api_key_issue_is_open [6%N; 11%N] no_tracker 1000 "JR:SAT-20548"
           (empty_world ∅ 1)); [exact I | split; reflexivity].
Defined.

(** *** What [collect_dupes] and [collect_data_jr] do to the index *)

Lemma jr_prefix number : String.prefix "JR:" ("JR:" ++ number) = true.
Proof. cbn. now destruct number. Qed.

Lemma grows_refl c : grows_by_jr c c.
Proof.
  exists c, []. rewrite app_nil_r. split; [reflexivity|]. split; [|constructor].
  induction c; constructor; auto.
Qed.

Lemma grows_trans c1 c2 c3 : grows_by_jr c1 c2 -> grows_by_jr c2 c3 -> grows_by_jr c1 c3.
Proof.
  intros (k1 & a1 & -> & H1 & Ha1) (k2 & a2 & -> & H2 & Ha2).
  apply Forall2_app_inv_l in H2 as (k2a & k2b & Hk & Hb & ->).
  exists k2a, (k2b ++ a2)%list. split; [now rewrite app_assoc|]. split.
  - clear -H1 Hk. revert k2a Hk. induction H1 as [|x y l l' (Hf & Hd & He) _ IH];
      intros k2a Hk; inversion Hk as [|y' z l1 l2 (Hf' & Hd' & He') Hk']; subst; constructor.
    + split; [congruence|]. split; [congruence|]. intros Hj.
      rewrite <- (He Hj). apply He'. rewrite (He Hj). exact Hj.
    + now apply IH.
  - apply Forall_app. split; [|exact Ha2].
    clear -Ha1 Hb. induction Hb as [|x y l l' (Hf & _) _ IH]; [constructor|].
    inversion Ha1; subst. constructor; [|now apply IH].
    unfold jr_key in *. congruence.
Qed.

Lemma grows_append c added :
  Forall (fun kv => jr_key kv = true) added -> grows_by_jr c (c ++ added)%list.
Proof.
  intros H. exists c, added. split; [reflexivity|]. split; [|exact H].
  induction c; constructor; auto.
Qed.

Lemma grows_set_entry_data c number data :
  grows_by_jr c (set_entry_data c ("JR:" ++ number) data).
Proof.
  unfold set_entry_data. destruct (has_key c _).
  - exists ((fun kv => if String.eqb (fst kv) ("JR:" ++ number)
                       then (fst kv, Entry data (e_is_dupe (snd kv))) else kv) <$> c), [].
    rewrite app_nil_r. split; [reflexivity|]. split; [|constructor].
    induction c as [|kv c IH]; constructor; [|exact IH].
    destruct (String.eqb_spec (fst kv) ("JR:" ++ number)) as [He|He]; auto.
    cbn. split; [reflexivity|]. split; [reflexivity|].
    unfold jr_key. rewrite He, jr_prefix. discriminate.
  - apply grows_append. constructor; [apply jr_prefix|constructor].
Qed.

Lemma has_key_app c c' key : has_key (c ++ c')%list key = has_key c key || has_key c' key.
Proof. unfold has_key. apply existsb_app. Qed.

Section Collect.
Variable sat_version : Version.
Variable api_key : bool.
Variable tracker : nat -> list string -> result (option (list dict)).
Variable frames : nat.

Lemma collect_dupes_added depth : forall jr collected_data cached_data w c' w',
  collect_dupes api_key tracker depth jr collected_data cached_data w = (Ok c', w') ->
  exists added,
    c' = (collected_data ++ added)%list /\
    NoDup (fst <$> added) /\
    Forall (fun kv => jr_key kv = true /\ e_is_dupe (snd kv) = true /\
                      has_key collected_data (fst kv) = false) added.
Proof.
  induction depth as [|depth IH]; intros jr c cached w c' w'; cbn [collect_dupes];
    [discriminate|].
  unfold bind at 1, reading at 1.
  destruct (py_get (heap w) jr "resolution") as [resolution|e]; [|discriminate].
  destruct (eq_str resolution "Duplicate").
  2:{ intros [= <- <-]. exists []. rewrite app_nil_r.
      split; [reflexivity|]. split; constructor. }
  unfold bind at 1, reading at 1.
  destruct (py_get (heap w) jr "dupe_of") as [dupe_of|e]; [|discriminate].
  unfold bind at 1.
  destruct (get_single_jr _ _ _ _ w) as [[dupe_data|e] w1]; [|discriminate].
  unfold bind at 1.
  destruct (setitem jr "dupe_data" dupe_data w1) as [[[]|e] w2]; [|discriminate].
  unfold bind at 1, reading at 1.
  destruct (py_getitem (heap w2) jr "dupe_of") as [dupe_of'|e]; [|discriminate].
  destruct (has_key c ("JR:" ++ format dupe_of')) eqn:Hk.
  - intros [= <- <-]. exists []. rewrite app_nil_r.
    split; [reflexivity|]. split; constructor.
  - intros H. apply IH in H as (added & -> & Hnd & Hadd).
    exists (("JR:" ++ format dupe_of', Entry dupe_data true) :: added).
    split; [now rewrite <- app_assoc|]. split.
    + cbn [fmap list_fmap fst]. constructor; [|exact Hnd].
      intros (kv & Hf & Hin)%list_elem_of_fmap.
      rewrite Forall_forall in Hadd. destruct (Hadd kv Hin) as (_ & _ & Hh).
      rewrite has_key_app in Hh. apply orb_false_iff in Hh as [_ Hh].
      cbn in Hh. rewrite <- Hf, String.eqb_refl in Hh. discriminate Hh.
    + constructor; [split; [apply jr_prefix | auto]|].
      eapply Forall_impl; [exact Hadd|]. intros kv (Hj & Hd & Hh).
      rewrite has_key_app in Hh. apply orb_false_iff in Hh as [Hh _]. auto.
Qed.

(** X16: [collect_dupes] only appends to the index: the entries it adds are
    "JR:" entries flagged [is_dupe], under pairwise distinct keys the index
    did not have. *)
Theorem collect_dupes_appends depth jr collected_data cached_data w c' w' :
  collect_dupes api_key tracker depth jr collected_data cached_data w = (Ok c', w') ->
  exists added,
    c' = (collected_data ++ added)%list /\
    NoDup (fst <$> added) /\
    Forall (fun kv => jr_key kv = true /\ e_is_dupe (snd kv) = true /\
                      has_key collected_data (fst kv) = false) added.
Proof.
  intros H. destruct (collect_dupes_added _ _ _ _ _ _ _ H) as (added & -> & Hnd & Hadd).
  exists added. split; [reflexivity|]. split; [exact Hnd | exact Hadd].
Qed.

Lemma collect_dupes_grows depth jr c cached_data w c' w' :
  collect_dupes api_key tracker depth jr c cached_data w = (Ok c', w') ->
  grows_by_jr c c'.
Proof.
  intros H. apply collect_dupes_added in H as (added & -> & _ & Hadd).
  apply grows_append. eapply Forall_impl; [exact Hadd|]. now intros kv (Hj & _).
Qed.

Lemma collect_each_grows jr_data : forall c cached_data w c' w',
  collect_each sat_version api_key tracker frames jr_data c cached_data w = (Ok c', w') ->
  grows_by_jr c c'.
Proof.
  induction jr_data as [|data rest IH]; intros c cached w c' w'; cbn [collect_each].
  { intros [= <- <-]. apply grows_refl. }
  unfold bind at 1.
  destruct (collect_dupes _ _ _ _ _ _ w) as [[c1|e] w1] eqn:Hd; [|discriminate].
  apply collect_dupes_grows in Hd.
  unfold bind at 1, reading at 1.
  destruct (py_getitem (heap w1) data "id") as [id|e]; [|discriminate].
  unfold bind at 1.
  destruct (is_open_jr _ _ _ _ _ _ w1) as [[open|e] w2]; [|discriminate].
  unfold bind at 1.
  destruct (setitem data "is_open" open w2) as [[[]|e] w3]; [|discriminate].
  intros H. apply IH in H.
  eapply grows_trans; [exact Hd|]. eapply grows_trans; [|exact H].
  apply grows_set_entry_data.
Qed.

(** X17: [collect_data_jr] removes and reorders nothing: the index it
    returns has every former entry in its place, with its [is_dupe] flag, the
    entries of other trackers unchanged, followed by further "JR:" entries. *)
Theorem collect_data_jr_grows collected_data cached_data w c' w' :
  collect_data_jr sat_version api_key tracker frames collected_data cached_data w
  = (Ok c', w') ->
  grows_by_jr collected_data c'.
Proof.
  unfold collect_data_jr. unfold bind at 1.
  destruct (get_data_jr _ _ _ _ w) as [[jr_data|e] w1]; [|discriminate].
  unfold bind at 1.
  destruct (truthy (heap w1) jr_data).
  - destruct (iterate (heap w1) jr_data) as [l|e]; [|discriminate].
    apply collect_each_grows.
  - apply collect_each_grows.
Qed.

(** X18: an index without a "JR:" key is returned as it is, and the state
    is unchanged: nothing is fetched, from the tracker or the cache. *)
Theorem collect_data_jr_without_jr_keys collected_data cached_data w :
  Forall (fun kv => jr_key kv = false) collected_data ->
  collect_data_jr sat_version api_key tracker frames collected_data cached_data w
  = (Ok collected_data, w).
Proof.
  intros H. unfold collect_data_jr.
  assert (List.filter (String.prefix "JR:") (fst <$> collected_data) = []) as ->.
  { induction H as [|kv c Hk _ IH]; [reflexivity|]. cbn. unfold jr_key in Hk.
    rewrite Hk. exact IH. }
  reflexivity.
Qed.
End Collect.

(** *** [collect_data_jr] without an API key *)

Lemma prefix_cons a s1 b s2 :
  String.prefix (String a s1) (String b s2)
  = if Ascii.ascii_dec a b then String.prefix s1 s2 else false.
Proof. reflexivity. Qed.

Lemma jr_key_restore k : String.prefix "JR:" k = true -> "JR:" ++ after_colon k = k.
Proof.
  destruct k as [|c1 k]; [intros H; discriminate H|]. rewrite prefix_cons.
  destruct (Ascii.ascii_dec _ c1) as [<-|]; [|intros H; discriminate H].
  destruct k as [|c2 k]; [intros H; discriminate H|]. rewrite prefix_cons.
  destruct (Ascii.ascii_dec _ c2) as [<-|]; [|intros H; discriminate H].
  destruct k as [|c3 k]; [intros H; discriminate H|]. rewrite prefix_cons.
  destruct (Ascii.ascii_dec _ c3) as [<-|]; [|intros H; discriminate H].
  reflexivity.
Qed.

Lemma after_colon_jr n : after_colon ("JR:" ++ n) = n.
Proof. reflexivity. Qed.

Lemma has_key_elem c key : has_key c key = true <-> key ∈ fst <$> c.
Proof.
  unfold has_key. rewrite existsb_exists. split.
  - intros (kv & Hin & He). apply String.eqb_eq in He as <-.
    apply list_elem_of_fmap. exists kv. split; [reflexivity|]. now apply list_elem_of_In.
  - intros (kv & -> & Hin)%list_elem_of_fmap. exists kv. split; [now apply list_elem_of_In|].
    apply String.eqb_refl.
Qed.

Lemma set_entry_data_present c key data :
  has_key c key = true ->
  set_entry_data c key data =
  (fun kv => if String.eqb (fst kv) key
             then (fst kv, Entry data (e_is_dupe (snd kv))) else kv) <$> c.
Proof. intros H. unfold set_entry_data. now rewrite H. Qed.

Lemma set_entry_data_keys c key data :
  has_key c key = true -> fst <$> set_entry_data c key data = fst <$> c.
Proof.
  intros H. rewrite set_entry_data_present by exact H. rewrite <- list_fmap_compose.
  apply list_fmap_ext. intros i kv _. cbn. now destruct (String.eqb _ _).
Qed.

Lemma filed_spec ns : forall start c,
  (forall n, n ∈ ns -> has_key c ("JR:" ++ n) = true) ->
  Forall2 (fun kv kv' =>
             fst kv' = fst kv /\
             ((exists i n, ns !! i = Some n /\ fst kv = "JR:" ++ n /\
                           e_data (snd kv') = VRef (start + i))
              \/ (kv' = kv /\ forall n, n ∈ ns -> fst kv <> "JR:" ++ n)))
          c (filed ns start c).
Proof.
  induction ns as [|n ns IH]; intros start c Hk; cbn [filed].
  - apply Forall_Forall2_diag, Forall_forall. intros kv _. split; [reflexivity|].
    right. split; [reflexivity|]. intros n Hn. now apply elem_of_nil in Hn.
  - assert (has_key c ("JR:" ++ n) = true) as Hn by (apply Hk; left).
    assert (forall m, m ∈ ns ->
              has_key (set_entry_data c ("JR:" ++ n) (VRef start)) ("JR:" ++ m) = true) as Hk'.
    { intros m Hm. apply has_key_elem. rewrite set_entry_data_keys by exact Hn.
      apply has_key_elem, Hk. now right. }
    specialize (IH (S start) _ Hk').
    rewrite set_entry_data_present in IH |- * by exact Hn.
    apply Forall2_fmap_l in IH.
    eapply Forall2_impl; [exact IH|]. cbn beta.
    intros kv kv' [Hf Hcase].
    destruct (String.eqb_spec (fst kv) ("JR:" ++ n)) as [He|He]; cbn [fst snd] in *.
    + split; [exact Hf|]. left. destruct Hcase as [(i & m & Hi & Hm & Hd) | [-> _]].
      * exists (S i), m. split; [exact Hi|]. split; [exact Hm|]. rewrite Hd. f_equal. lia.
      * exists 0, n. split; [reflexivity|]. split; [exact He|]. cbn. f_equal. lia.
    + split; [exact Hf|]. destruct Hcase as [(i & m & Hi & Hm & Hd) | [-> Hno]].
      * left. exists (S i), m. split; [exact Hi|]. split; [exact Hm|]. rewrite Hd. f_equal. lia.
      * right. split; [reflexivity|]. intros m [-> | Hm]%elem_of_cons; auto.
Qed.

Lemma deref_at (h : store) (a : addr) d : h !! a = Some d -> deref h a = d.
Proof. intros H. unfold deref. now rewrite H. Qed.

Section Defaults.
Variable sat_version : Version.
Variable tracker : nat -> list string -> result (option (list dict)).
Variable frames : nat.

Lemma collect_dupes_not_duplicate api_key depth jr c cached_data w resolution :
  py_get (heap w) jr "resolution" = Ok resolution ->
  eq_str resolution "Duplicate" = false ->
  collect_dupes api_key tracker (S depth) jr c cached_data w = (Ok c, w).
Proof.
  intros Hr He. cbn [collect_dupes]. unfold bind, reading. rewrite Hr, He. reflexivity.
Qed.

Lemma setitem_same a key v d w :
  heap w !! a = Some d -> d !! key = Some v ->
  setitem (VRef a) key v w = (Ok tt, w).
Proof.
  intros Ha Hk. unfold setitem, deref. rewrite Ha. cbn [default from_option id].
  rewrite (insert_id d) by exact Hk. rewrite (insert_id (heap w)) by exact Ha.
  now destruct w.
Qed.

Lemma collect_each_defaults cached_data ns : forall (start : addr) c w,
  0 < frames ->
  (forall i n, ns !! i = Some n -> heap w !! (start + i) = Some (default_jr n)) ->
  collect_each sat_version false tracker frames (VRef <$> seq start (length ns)) c
    cached_data w
  = (Ok (filed ns start c), w).
Proof.
  induction ns as [|n ns IH]; intros start c w Hf Hh; [reflexivity|].
  cbn [length seq fmap list_fmap collect_each filed].
  assert (deref (heap w) start = default_jr n) as Hn.
  { apply deref_at. rewrite <- (Nat.add_0_r start). now apply Hh. }
  destruct frames as [|depth] eqn:Hfr; [lia|].
  unfold bind at 1.
  rewrite (collect_dupes_not_duplicate false depth (VRef start) c cached_data w (VStr ""));
    [| unfold py_get; rewrite Hn; reflexivity | reflexivity].
  unfold bind at 1, reading at 1. unfold py_getitem. rewrite Hn.
  change (default_jr n !! "id") with (Some (VStr n)).
  cbn [format]. unfold bind at 1.
  rewrite (is_open_jr_stored sat_version false tracker (S depth) ("JR:" ++ n) (VRef start)
             w (VRef start) w (VBool true));
    [| apply try_from_cache_given; cbn [truthy]; rewrite Hn;
       now rewrite default_jr_not_empty
     | unfold py_get; rewrite Hn; reflexivity
     | reflexivity].
  unfold bind at 1.
  rewrite (setitem_same start "is_open" (VBool true) (default_jr n) w);
    [| rewrite <- (Nat.add_0_r start); now apply Hh | reflexivity].
  apply IH; [lia|].
  intros i m Hi. replace (S start + i) with (start + S i) by lia. now apply Hh.
Qed.

(** X19: without an API key and without a cache, [collect_data_jr] sends no
    request and files, under every "JR:" key of the index, a default record
    for that issue; all other entries stay as they are. *)
Theorem collect_data_jr_without_api_key collected_data cached_data w :
  0 < frames -> no_cache cached_data ->
  no_memo (after_colon <$> List.filter (String.prefix "JR:") (fst <$> collected_data)) w ->
  exists c' w',
    collect_data_jr sat_version false tracker frames collected_data cached_data w
    = (Ok c', w') /\
    requests_sent w' = requests_sent w /\
    Forall2 (fun kv kv' =>
               fst kv' = fst kv /\
               if jr_key kv
               then exists a, e_data (snd kv') = VRef a /\
                              heap w' !! a = Some (default_jr (after_colon (fst kv)))
               else kv' = kv) collected_data c'.
Proof.
  intros Hf Hc Hm. unfold collect_data_jr.
  set (ns := after_colon <$> List.filter (String.prefix "JR:") (fst <$> collected_data)) in *.
  assert (forall n, n ∈ ns -> has_key collected_data ("JR:" ++ n) = true) as Hkeys.
  { intros n (k & -> & Hk)%list_elem_of_fmap.
    apply list_elem_of_In, filter_In in Hk as [Hin Hp].
    rewrite (jr_key_restore _ Hp). apply has_key_elem. now apply list_elem_of_In. }
  assert (forall kv, kv ∈ collected_data -> jr_key kv = true -> after_colon (fst kv) ∈ ns)
    as Hns.
  { intros kv Hin Hj. apply list_elem_of_fmap. exists (fst kv). split; [reflexivity|].
    apply list_elem_of_In, filter_In. split; [|exact Hj].
    apply list_elem_of_In, list_elem_of_fmap. eauto. }
  destruct ns as [|n0 ns0] eqn:Hnse.
  { exists collected_data, w. split; [reflexivity|]. split; [reflexivity|].
    apply Forall_Forall2_diag, Forall_forall. intros kv Hin. split; [reflexivity|].
    destruct (jr_key kv) eqn:Hj; [|reflexivity].
    apply Hns in Hin; [|exact Hj]. now apply elem_of_nil in Hin. }
  rewrite <- Hnse in *. assert (ns <> []) as Hne by (rewrite Hnse; discriminate).
  clear Hnse n0 ns0.
  unfold bind at 1. rewrite get_data_jr_defaults by assumption.
  destruct (alloc_all_spec (default_jr <$> ns) w) as (w1 & Ha & _ & Hr & _ & _ & Hh).
  unfold bind at 1. rewrite Ha. cbn [ret]. unfold bind at 1.
  rewrite length_fmap in *.
  assert (truthy (heap w1) (VList (VRef <$> seq (next w) (length ns))) = true) as ->.
  { destruct ns; [congruence|reflexivity]. }
  cbn [iterate].
  rewrite collect_each_defaults; [|exact Hf|].
  2:{ intros i n Hi. apply Hh. rewrite list_lookup_fmap, Hi. reflexivity. }
  exists (filed ns (next w) collected_data), w1.
  split; [reflexivity|]. split; [exact Hr|].
  pose proof (filed_spec ns (next w) collected_data Hkeys) as Hspec.
  apply Forall2_same_length_lookup. split; [eapply Forall2_length; eauto|].
  intros i kv kv' Hi Hi'.
  destruct (Forall2_lookup_lr _ _ _ _ _ _ Hspec Hi Hi') as [Hfst Hcase].
  split; [exact Hfst|].
  destruct (jr_key kv) eqn:Hj.
  - destruct Hcase as [(j & n & Hj' & Hk & Hd) | [_ Hno]].
    + exists (next w + j). split; [exact Hd|]. rewrite Hk, after_colon_jr.
      apply Hh. rewrite list_lookup_fmap, Hj'. reflexivity.
    + exfalso. apply (Hno (after_colon (fst kv))).
      * apply Hns; [eapply list_elem_of_lookup_2; eauto | exact Hj].
      * symmetry. now apply jr_key_restore.
  - destruct Hcase as [(j & n & _ & Hk & _) | [-> _]]; [|reflexivity].
    unfold jr_key in Hj. rewrite Hk, jr_prefix in Hj. discriminate.
Qed.
End Defaults.

(** *** Resolving an issue the tracker reports as open *)

Section Live.
Variable sat_version : Version.
Variable tracker : nat -> list string -> result (option (list dict)).
Variable frames : nat.

Lemma get_single_jr_fetches number w d :
  nothing_memoised number w ->
  tracker (requests_sent w) [number] = Ok (Some [d]) ->
  dict_is_empty d = false ->
  exists w',
    get_single_jr true tracker number None w = (Ok (VRef (next w)), w') /\
    heap w' !! next w = Some d /\
    requests_sent w' = S (requests_sent w) /\
    seconds_slept w' = seconds_slept w.
Proof.
  intros [Hs Hd] Ht He.
  destruct (get_data_jr_body_succeeds tracker [number] (Some []) w [d])
    as (w1 & Hb & Hr & Hsl & _ & Hh);
    [discriminate | unfold no_memo; now rewrite Hd | now right | exact Ht |].
  specialize (Hh 0 d eq_refl). rewrite Nat.add_0_r in Hh.
  unfold get_single_jr. rewrite Hs. cbn [default from_option id truthy].
  unfold bind at 1. unfold try_except. cbn [cache_lookup find fmap option_fmap option_map throw
    caught_KeyError_TypeError].
  unfold bind at 1. unfold get_data_jr, retry. rewrite (retry_loop_first _ _ _ _ _ _ Hb).
  cbn [length seq fmap list_fmap truthy index0].
  unfold bind at 1, memo_get_single at 1. cbn [heap truthy].
  rewrite (deref_at _ _ _ Hh), He. cbn [negb].
  eexists. split; [reflexivity|]. cbn. auto.
Qed.

Lemma try_from_cache_fetches issue w d :
  not_collected issue w -> nothing_memoised (after_colon issue) w ->
  tracker (requests_sent w) [after_colon issue] = Ok (Some [d]) ->
  dict_is_empty d = false ->
  exists a w',
    try_from_cache true tracker issue VNone w = (Ok (VRef a), w') /\
    heap w' !! a = Some d /\
    requests_sent w' = S (requests_sent w) /\
    seconds_slept w' = seconds_slept w.
Proof.
  intros Hc Hm Ht He. unfold try_from_cache, try_except. cbn [truthy].
  unfold bind at 1, issue_data_lookup. unfold not_collected in Hc.
  destruct (issue_data w) as [index|] eqn:Hi.
  - rewrite Hc. cbn [heap truthy]. unfold deref at 1. rewrite lookup_insert_eq.
    cbn [from_option id caught_by_try_from_cache].
    change (dict_is_empty ∅) with true. cbn [negb].
    set (w1 := World _ _ _ _ _ _ _).
    destruct (get_single_jr_fetches (after_colon issue) w1 d) as (w' & Hg & Hrest);
      [exact Hm | exact Ht | exact He |].
    exists (next w1), w'. split; [exact Hg | exact Hrest].
  - cbn [caught_by_try_from_cache].
    destruct (get_single_jr_fetches (after_colon issue) w d) as (w' & Hg & Hrest);
      [exact Hm | exact Ht | exact He |].
    exists (next w), w'. split; [exact Hg | exact Hrest].
Qed.

(** X15: with an API key, an issue that is neither collected nor memoised
    and that the tracker reports with a status of the open set -- no stored
    [is_open], no [dupe_data] -- makes [is_open_jr] return [True] after exactly
    one request and no wait. *)
Theorem is_open_jr_live_lookup issue w d status :
  0 < frames ->
  not_collected issue w -> nothing_memoised (after_colon issue) w ->
  tracker (requests_sent w) [after_colon issue] = Ok (Some [d]) ->
  d !! "is_open" = None -> d !! "dupe_data" = None ->
  d !! "status" = Some status -> in_tuple status OPEN_STATUSES = true ->
  exists w',
    is_open_jr sat_version true tracker frames issue VNone w = (Ok (VBool true), w') /\
    requests_sent w' = S (requests_sent w) /\
    seconds_slept w' = seconds_slept w.
Proof.
  intros Hf Hc Hm Ht Ho Hd Hs Hopen.
  assert (dict_is_empty d = false) as He.
  { unfold dict_is_empty. apply bool_decide_eq_false_2. intros ->. discriminate Hs. }
  destruct (try_from_cache_fetches issue w d Hc Hm Ht He) as (a & w' & Htry & Hh & Hr & Hsl).
  exists w'. split; [|split; assumption].
  rewrite (is_open_jr_computed sat_version true tracker frames issue VNone w (VRef a) w' Htry);
    [| unfold py_get; rewrite (deref_at _ _ _ Hh), Ho; reflexivity].
  rewrite (follow_duplicates_chain (heap w') (VRef a) 0 (VRef a) frames); [| |exact Hf].
  - cbn [rbind]. unfold py_get. rewrite (deref_at _ _ _ Hh), Hs. cbn [default from_option id rbind].
    rewrite Hopen. reflexivity.
  - apply (chain_end _ _ VNone); [|reflexivity].
    unfold py_get. rewrite (deref_at _ _ _ Hh), Hd. reflexivity.
Qed.
End Live.

Lemma is_open_jr_live_lookup_witness :
  exists w',
    is_open_jr [6%N; 11%N] true open_tracker 1000 "JR:SAT-20548" VNone (empty_world ∅ 1)
    = (Ok (VBool true), w') /\
    requests_sent w' = S (requests_sent (empty_world ∅ 1)) /\
    seconds_slept w' = seconds_slept (empty_world ∅ 1).
Proof.
  apply (is_open_jr_live_lookup [6%N; 11%N] open_tracker 1000 "JR:SAT-20548"
           (empty_world ∅ 1) in_progress_6_10 (VStr "In Progress"));
    [lia | exact I | split; reflexivity | reflexivity | reflexivity | reflexivity
    | reflexivity | reflexivity].
Defined.

(** *** Resolving a collected issue *)

Section Collected.
Variable sat_version : Version.
Variable api_key : bool.
Variable tracker : nat -> list string -> result (option (list dict)).
Variable frames : nat.

Lemma try_from_cache_collected issue w index a :
  issue_data w = Some index -> index !! issue = Some a ->
  truthy (heap w) (VRef a) = true ->
  try_from_cache api_key tracker issue VNone w = (Ok (VRef a), w).
Proof.
  intros Hi Ha Ht. unfold try_from_cache, try_except. cbn [truthy].
  unfold bind, issue_data_lookup. rewrite Hi, Ha, Ht. reflexivity.
Qed.

(** X25: for an issue whose non-empty record [pytest.issue_data] holds,
    [is_open_jr] and [should_deselect_jr] called without [data] do exactly
    what they do when called with that record, and leave the state as it
    is: no request, whatever the API key and the tracker. *)
Theorem collected_issue_needs_no_data issue w index a :
  issue_data w = Some index -> index !! issue = Some a ->
  truthy (heap w) (VRef a) = true ->
  is_open_jr sat_version api_key tracker frames issue VNone w
  = is_open_jr sat_version api_key tracker frames issue (VRef a) w /\
  should_deselect_jr api_key tracker frames issue VNone w
  = should_deselect_jr api_key tracker frames issue (VRef a) w /\
  snd (is_open_jr sat_version api_key tracker frames issue VNone w) = w /\
  snd (should_deselect_jr api_key tracker frames issue VNone w) = w.
Proof.
  intros Hi Ha Ht.
  pose proof (try_from_cache_collected issue w index a Hi Ha Ht) as H1.
  pose proof (try_from_cache_given api_key tracker issue (VRef a) w Ht) as H2.
  unfold is_open_jr, should_deselect_jr, bind. rewrite H1, H2. repeat split.
Qed.
End Collected.

Lemma collected_issue_needs_no_data_witness :
  is_open_jr [6%N; 11%N] true no_tracker 1000 "JR:SAT-20548" VNone collected_world
  = is_open_jr [6%N; 11%N] true no_tracker 1000 "JR:SAT-20548" (VRef 1) collected_world /\
  should_deselect_jr true no_tracker 1000 "JR:SAT-20548" VNone collected_world
  = should_deselect_jr true no_tracker 1000 "JR:SAT-20548" (VRef 1) collected_world /\
  snd (is_open_jr [6%N; 11%N] true no_tracker 1000 "JR:SAT-20548" VNone collected_world)
  = collected_world /\
  snd (should_deselect_jr true no_tracker 1000 "JR:SAT-20548" VNone collected_world)
  = collected_world.
Proof.
  apply (collected_issue_needs_no_data [6%N; 11%N] true no_tracker 1000 "JR:SAT-20548"
           collected_world {[ "JR:SAT-20548" := 1 ]} 1); reflexivity.
Defined.

(** *** Instances of the facts about the index *)

Lemma collect_dupes_appends_witness :
  exists added,
    (dupe_run ++ [("JR:SAT-2", Entry (VRef 2) true)])%list = (dupe_run ++ added)%list /\
    NoDup (fst <$> added) /\
    Forall (fun kv => jr_key kv = true /\ e_is_dupe (snd kv) = true /\
                      has_key dupe_run (fst kv) = false) added.
Proof.
  apply (collect_dupes_appends true no_tracker 1000 (VRef 1) dupe_run (Some dupe_cache)
           dupe_world (dupe_run ++ [("JR:SAT-2", Entry (VRef 2) true)])%list
           (snd (collect_dupes true no_tracker 1000 (VRef 1) dupe_run (Some dupe_cache)
                   dupe_world))).
  vm_compute. reflexivity.
Defined.

Lemma collect_data_jr_grows_witness : grows_by_jr dupe_run dupe_collected.
Proof.
  apply (collect_data_jr_grows [6%N; 11%N] true no_tracker 1000 dupe_run (Some dupe_cache)
           dupe_world dupe_collected
           (snd (collect_data_jr [6%N; 11%N] true no_tracker 1000 dupe_run (Some dupe_cache)
                   dupe_world))).
  vm_compute. reflexivity.
Defined.

Lemma collect_data_jr_without_jr_keys_witness :
  collect_data_jr [6%N; 11%N] true no_tracker 1000 bz_run None dupe_world
  = (Ok bz_run, dupe_world).
Proof.
  apply (collect_data_jr_without_jr_keys [6%N; 11%N] true no_tracker 1000 bz_run None
           dupe_world).
  repeat constructor.
Defined.

Lemma collect_data_jr_without_api_key_witness :
  exists c' w',
    collect_data_jr [6%N; 11%N] false no_tracker 1000 dupe_run None dupe_world
    = (Ok c', w') /\
    requests_sent w' = requests_sent dupe_world /\
    Forall2 (fun kv kv' =>
               fst kv' = fst kv /\
               if jr_key kv
               then exists a, e_data (snd kv') = VRef a /\
                              heap w' !! a = Some (default_jr (after_colon (fst kv)))
               else kv' = kv) dupe_run c'.
Proof.
  apply (collect_data_jr_without_api_key [6%N; 11%N] no_tracker 1000 dupe_run None
           dupe_world); [lia | left; reflexivity | reflexivity].
Defined.

End JiraFacts.

(** ** Properties of the pytest plugin *)
Module PluginFacts.
Import Py Plugin.

Lemma raises_rbind {A B} (r : result A) (k : A -> result B) :
  (forall a, r = Ok a -> raises (k a)) -> raises (rbind r k).
Proof.
  intros H. destruct r as [a|e]; cbn; [apply H; reflexivity | eexists; reflexivity].
Qed.

Lemma raises_rbind_l {A B} (r : result A) (k : A -> result B) :
  raises r -> raises (rbind r k).
Proof. intros [e ->]. eexists; reflexivity. Qed.

Lemma find_app_first {A} (f : A -> bool) l1 l2 :
  find f (l1 ++ l2) = match find f l1 with Some x => Some x | None => find f l2 end.
Proof.
  induction l1 as [|x l1 IH]; cbn; [reflexivity|]. destruct (f x); auto.
Qed.

(** A mark of another name does not change which mark is closest. *)
Lemma closest_add_marker it m n :
  String.eqb (name m) n = false ->
  get_closest_marker (add_marker it m) n = get_closest_marker it n.
Proof.
  intros Hn. unfold get_closest_marker, iter_markers, add_marker. cbn.
  rewrite !find_app_first. cbn. rewrite Hn.
  destruct (find _ (own_markers it)); reflexivity.
Qed.

Section Collection.
Variable h : store.
Variable is_open : value -> result value.
Variable should_deselect : string -> result value.
Variable collect_data : list string -> result unit.
Variable slugify_component : value -> result string.

Lemma issue_of_malformed m : malformed h m -> issue_of h m = Raise IndexError.
Proof. intros [Hr Ha]. unfold issue_of. rewrite Hr, Ha. reflexivity. Qed.

Lemma closest_add_marks it n numbers key :
  String.eqb n key = false ->
  get_closest_marker (add_marks it n numbers) key = get_closest_marker it key.
Proof.
  intros Hn. destruct numbers; cbn; [reflexivity|]. now apply closest_add_marker.
Qed.

Lemma collect_item_closest it it' keys :
  collect_item h slugify_component it = Ok (it', keys) ->
  get_closest_marker it' "skip_if_open" = get_closest_marker it "skip_if_open".
Proof.
  unfold collect_item. destruct (String.prefix _ _); [intros [= <- _]; reflexivity|].
  destruct (get_closest_marker it "component"); [|intros [= <- _]; reflexivity].
  destruct (first_arg_of _); cbn [rbind]; [|discriminate].
  destruct (slugify_component _); cbn [rbind]; [|discriminate].
  destruct (first_arg_of _); cbn [rbind]; [|discriminate].
  destruct (scan_markers _ _); cbn [rbind]; [|discriminate].
  intros [= <- _]. now rewrite !closest_add_marks.
Qed.

Lemma collect_items_closest items : forall scanned,
  collect_items h slugify_component items = Ok scanned ->
  Forall2 (fun it it' => get_closest_marker it' "skip_if_open"
                         = get_closest_marker it "skip_if_open") items (fst <$> scanned).
Proof.
  induction items as [|it items IH]; cbn; intros scanned.
  - intros [= <-]. constructor.
  - destruct (collect_item _ _ it) as [[it' keys]|] eqn:Hc; cbn [rbind]; [|discriminate].
    destruct (collect_items _ _ items) as [rest|]; cbn [rbind]; [|discriminate].
    intros [= <-]. cbn. constructor; [|now apply IH].
    eapply collect_item_closest; eauto.
Qed.

Lemma mark_deselected_closest deselect_data items : forall items',
  mark_deselected h should_deselect deselect_data items = Ok items' ->
  Forall2 (fun it it' => get_closest_marker it' "skip_if_open"
                         = get_closest_marker it "skip_if_open") items items'.
Proof.
  induction items as [|it items IH]; cbn; intros items'.
  - intros [= <-]. constructor.
  - match goal with |- rbind ?r _ = _ -> _ => destruct r as [it'|] eqn:Hit end;
      cbn [rbind]; [|discriminate].
    destruct (mark_deselected _ _ _ items) as [rest|]; cbn [rbind]; [|discriminate].
    intros [= <-]. constructor; [|now apply IH].
    destruct (deselect_lookup _ _) as [issue|]; [|now injection Hit as <-].
    destruct (String.eqb issue ""); [now injection Hit as <-|].
    destruct (should_deselect issue) as [d|]; cbn [rbind] in Hit; [|discriminate].
    destruct (truthy h d); injection Hit as <-; [|reflexivity].
    now apply closest_add_marker.
Qed.

Lemma modify_items_malformed bz jr items :
  Exists (fun it => exists m, get_closest_marker it "skip_if_open" = Some m /\ malformed h m)
         items ->
  raises (modify_items h is_open bz jr items).
Proof.
  induction 1 as [it items (m & Hm & Hbad) | it items _ IH]; cbn.
  - apply raises_rbind_l. unfold add_skipif. rewrite Hm, (issue_of_malformed _ Hbad).
    eexists; reflexivity.
  - apply raises_rbind. intros it1 _. apply raises_rbind. intros keep _.
    now apply raises_rbind_l.
Qed.

Lemma scan_markers_malformed ms m :
  m ∈ ms -> existsb (String.eqb (name m)) valid_markers = true -> malformed h m ->
  raises (scan_markers h ms).
Proof.
  intros Hin Hv Hbad. induction Hin as [m ms | m m' ms _ IH]; cbn [scan_markers].
  - rewrite Hv, (issue_of_malformed _ Hbad). eexists; reflexivity.
  - specialize (IH Hv Hbad).
    destruct (existsb (String.eqb (name m')) valid_markers); [|exact IH].
    apply raises_rbind. intros issue _. apply raises_rbind. intros key _.
    now apply raises_rbind_l.
Qed.

Lemma collect_item_malformed it m :
  m ∈ iter_markers it -> existsb (String.eqb (name m)) valid_markers = true ->
  malformed h m ->
  String.prefix "tests/robottelo/" (nodeid it) = false ->
  is_Some (get_closest_marker it "component") ->
  raises (collect_item h slugify_component it).
Proof.
  intros Hin Hv Hbad Hp [c Hc]. unfold collect_item. rewrite Hp, Hc.
  apply raises_rbind. intros ? _. apply raises_rbind. intros ? _.
  apply raises_rbind. intros ? _. apply raises_rbind_l.
  eapply scan_markers_malformed; eauto.
Qed.

Lemma collect_items_raises items :
  Exists (fun it => raises (collect_item h slugify_component it)) items ->
  raises (collect_items h slugify_component items).
Proof.
  induction 1 as [it items Hr | it items _ IH]; cbn.
  - now apply raises_rbind_l.
  - apply raises_rbind. intros ? _. now apply raises_rbind_l.
Qed.

(** C9, as the code has it: collection raises when the closest
    [skip_if_open] mark of some item has neither a reason nor a positional
    argument, and when any mark named in [valid_markers] has neither on an
    item outside tests/robottelo/ that carries a [component] mark. *)
Theorem malformed_marker_is_an_error BZ JR items it m :
  it ∈ items -> malformed h m ->
  get_closest_marker it "skip_if_open" = Some m
  \/ (m ∈ iter_markers it /\ existsb (String.eqb (name m)) valid_markers = true /\
      String.prefix "tests/robottelo/" (nodeid it) = false /\
      is_Some (get_closest_marker it "component")) ->
  raises (pytest_collection_modifyitems h is_open should_deselect collect_data
            slugify_component BZ JR items).
Proof.
  intros Hin Hbad [Hclosest | (Hm & Hv & Hp & Hc)];
    unfold pytest_collection_modifyitems, generate_issue_collection.
  - apply raises_rbind. intros [items' keys].
    destruct (collect_items _ _ items) as [scanned|] eqn:Hs; cbn [rbind]; [|discriminate].
    destruct (collect_data _); cbn [rbind]; [|discriminate].
    destruct (mark_deselected _ _ _ _) as [marked|] eqn:Hd; cbn [rbind]; [|discriminate].
    intros [= <- _]. apply modify_items_malformed.
    pose proof (collect_items_closest _ _ Hs) as H1.
    pose proof (mark_deselected_closest _ _ _ Hd) as H2.
    apply list_elem_of_lookup in Hin as [i Hi].
    destruct (Forall2_lookup_l _ _ _ _ _ H1 Hi) as (it1 & Hi1 & E1).
    destruct (Forall2_lookup_l _ _ _ _ _ H2 Hi1) as (it2 & Hi2 & E2).
    apply Exists_exists. exists it2. split; [eapply list_elem_of_lookup_2; eauto|].
    exists m. split; [congruence | exact Hbad].
  - apply raises_rbind_l, raises_rbind_l, collect_items_raises.
    apply Exists_exists. exists it. split; [exact Hin|].
    eapply collect_item_malformed; eauto.
Qed.

(** *** The command-line filters *)

Lemma is_selected_no_filter bz_filters jr_filters it :
  filter_truthy bz_filters = false -> filter_truthy jr_filters = false ->
  is_selected bz_filters jr_filters it = Ok true.
Proof. intros Hb Hj. unfold is_selected. rewrite Hb, Hj. reflexivity. Qed.

(** Both filters given, an item stays exactly when either of them meets
    its marks. *)
Lemma is_selected_both_filters n ns n' ns' it bz jr :
  set_of_args (closest_args it "BZ") = Ok bz ->
  set_of_args (closest_args it "JR") = Ok jr ->
  is_selected (Numbers (n :: ns)) (Numbers (n' :: ns')) it =
  Ok (intersects (n :: ns) bz || intersects (n' :: ns') jr).
Proof.
  intros Hb Hj. unfold is_selected. cbn [filter_truthy orb]. rewrite Hb, Hj.
  cbn [rbind set_of_filter]. destruct (intersects (n :: ns) bz); reflexivity.
Qed.

(** Only [--BZ] given: an item whose marks miss the list is not deselected,
    [set(None)] raises. *)
Lemma is_selected_bz_alone n ns it bz jr :
  set_of_args (closest_args it "BZ") = Ok bz ->
  set_of_args (closest_args it "JR") = Ok jr ->
  is_selected (Numbers (n :: ns)) NotGiven it =
  if intersects (n :: ns) bz then Ok true else Raise TypeError.
Proof.
  intros Hb Hj. unfold is_selected. cbn [filter_truthy orb]. rewrite Hb, Hj.
  cbn [rbind set_of_filter]. destruct (intersects (n :: ns) bz); reflexivity.
Qed.

(** Only [--JR] given: [set(None)] raises for every item. *)
Lemma is_selected_jr_alone n ns it bz jr :
  set_of_args (closest_args it "BZ") = Ok bz ->
  set_of_args (closest_args it "JR") = Ok jr ->
  is_selected NotGiven (Numbers (n :: ns)) it = Raise TypeError.
Proof.
  intros Hb Hj. unfold is_selected. cbn [filter_truthy orb]. rewrite Hb, Hj.
  reflexivity.
Qed.

End Collection.

Lemma bare_skip_if_open_is_malformed :
  malformed ∅ (Mark "skip_if_open" [] []).
Proof. split; reflexivity. Qed.

Lemma malformed_marker_is_an_error_witness :
  raises (run_hook None None [api_test "test_a" "123456"; api_test_bare_skip_if_open]).
Proof.
  apply (malformed_marker_is_an_error ∅ never_open never_deselect collect_nothing
           slug_any None None
           [api_test "test_a" "123456"; api_test_bare_skip_if_open]
           api_test_bare_skip_if_open (Mark "skip_if_open" [] []));
    [ apply list_elem_of_further, list_elem_of_here
    | exact bare_skip_if_open_is_malformed
    | left; reflexivity ].
Defined.

(** C9 as stated fails: a unit test of the suite (under tests/robottelo/)
    with a [skip] mark that has neither a reason nor an argument is collected
    without an error. *)
Lemma bare_skip_in_unit_test_is_tolerated :
  existsb (String.eqb "skip") valid_markers = true /\
  In (Mark "skip" [] []) (iter_markers unit_test_bare_skip) /\
  kwargs_get (Mark "skip" [] []) "reason" = VNone /\
  run_hook None None [unit_test_bare_skip] = Ok ([unit_test_bare_skip], []).
Proof. repeat split. now left. Qed.

(** C5 (a defect of the code): with [--BZ 123456] alone, a collection of one
    test whose [BZ] mark holds 123456 and one whose mark holds 654321 is not
    split into selected and deselected: the hook raises [TypeError] at the
    second test.  With a [--JR] list given as well it is split as expected. *)
Theorem bz_filter_alone_raises :
  run_hook (Some "123456") None [api_test "test_a" "123456"; api_test "test_b" "654321"]
  = Raise TypeError /\
  run_hook (Some "123456") (Some "SAT-0")
    [api_test "test_a" "123456"; api_test "test_b" "654321"]
  = Ok ([add_marker (api_test "test_a" "123456") (Mark "BZ" [VStr "123456"] [])],
        [add_marker (api_test "test_b" "654321") (Mark "BZ" [VStr "654321"] [])]).
Proof. split; reflexivity. Qed.

(** *** What the hooks do to the items *)

Lemma only_marks_added_refl it : only_marks_added it it.
Proof. repeat split; reflexivity. Qed.

Lemma only_marks_added_trans a b c :
  only_marks_added a b -> only_marks_added b c -> only_marks_added a c.
Proof.
  intros (H1 & H2 & H3 & H4 & H5 & H6) (G1 & G2 & G3 & G4 & G5 & G6).
  repeat split; try congruence. etransitivity; eauto.
Qed.

Lemma only_marks_added_add_marker it m : only_marks_added it (add_marker it m).
Proof. repeat split; try reflexivity. cbn. now apply prefix_app_r. Qed.

Lemma only_marks_added_add_marks it n numbers : only_marks_added it (add_marks it n numbers).
Proof.
  destruct numbers; cbn; [apply only_marks_added_refl | apply only_marks_added_add_marker].
Qed.

Section Hook.
Variable h : store.
Variable is_open : value -> result value.
Variable should_deselect : string -> result value.
Variable collect_data : list string -> result unit.
Variable slugify_component : value -> result string.

Lemma collect_item_only_adds it it' keys :
  collect_item h slugify_component it = Ok (it', keys) -> only_marks_added it it'.
Proof.
  unfold collect_item.
  destruct (String.prefix _ _); [intros [= <- _]; apply only_marks_added_refl|].
  destruct (get_closest_marker it "component"); [|intros [= <- _]; apply only_marks_added_refl].
  destruct (first_arg_of _); cbn [rbind]; [|discriminate].
  destruct (slugify_component _); cbn [rbind]; [|discriminate].
  destruct (first_arg_of _); cbn [rbind]; [|discriminate].
  destruct (scan_markers _ _); cbn [rbind]; [|discriminate].
  intros [= <- _].
  eapply only_marks_added_trans; apply only_marks_added_add_marks.
Qed.

Lemma collect_items_only_adds items : forall scanned,
  collect_items h slugify_component items = Ok scanned ->
  Forall2 only_marks_added items (fst <$> scanned).
Proof.
  induction items as [|it items IH]; cbn; intros scanned.
  - intros [= <-]. constructor.
  - destruct (collect_item _ _ it) as [[it' keys]|] eqn:Hc; cbn [rbind]; [|discriminate].
    destruct (collect_items _ _ items) as [rest|]; cbn [rbind]; [|discriminate].
    intros [= <-]. cbn. constructor; [|now apply IH].
    eapply collect_item_only_adds; eauto.
Qed.

Lemma mark_deselected_only_adds deselect_data items : forall items',
  mark_deselected h should_deselect deselect_data items = Ok items' ->
  Forall2 only_marks_added items items'.
Proof.
  induction items as [|it items IH]; cbn; intros items'.
  - intros [= <-]. constructor.
  - match goal with |- rbind ?r _ = _ -> _ => destruct r as [it'|] eqn:Hit end;
      cbn [rbind]; [|discriminate].
    destruct (mark_deselected _ _ _ items) as [rest|]; cbn [rbind]; [|discriminate].
    intros [= <-]. constructor; [|now apply IH].
    destruct (deselect_lookup _ _) as [issue|];
      [|injection Hit as <-; apply only_marks_added_refl].
    destruct (String.eqb issue ""); [injection Hit as <-; apply only_marks_added_refl|].
    destruct (should_deselect issue) as [d|]; cbn [rbind] in Hit; [|discriminate].
    destruct (truthy h d); injection Hit as <-;
      [apply only_marks_added_add_marker | apply only_marks_added_refl].
Qed.

Lemma Forall2_only_marks_added_trans l1 : forall l2 l3,
  Forall2 only_marks_added l1 l2 -> Forall2 only_marks_added l2 l3 ->
  Forall2 only_marks_added l1 l3.
Proof.
  induction l1 as [|a l1 IH]; intros l2 l3 H1 H2; inversion H1; subst;
    inversion H2; subst; constructor.
  - eapply only_marks_added_trans; eauto.
  - eapply IH; eauto.
Qed.

(** X21: [generate_issue_collection] drops and reorders no item: each item
    comes back with its node id, location, inherited marks and docstring
    fields, and with its own marks extended at the end. *)
Theorem generate_issue_collection_only_adds_marks items items' keys :
  generate_issue_collection h should_deselect collect_data slugify_component items
  = Ok (items', keys) ->
  Forall2 only_marks_added items items'.
Proof.
  unfold generate_issue_collection.
  destruct (collect_items _ _ items) as [scanned|] eqn:Hs; cbn [rbind]; [|discriminate].
  destruct (collect_data _); cbn [rbind]; [|discriminate].
  destruct (mark_deselected _ _ _ _) as [marked|] eqn:Hd; cbn [rbind]; [|discriminate].
  intros [= <- _].
  eapply Forall2_only_marks_added_trans;
    [eapply collect_items_only_adds | eapply mark_deselected_only_adds]; eauto.
Qed.

Lemma add_skipif_only_adds it it' :
  add_skipif h is_open it = Ok it' -> only_marks_added it it'.
Proof.
  unfold add_skipif. destruct (get_closest_marker it "skip_if_open") as [m|];
    [|intros [= <-]; apply only_marks_added_refl].
  destruct (issue_of h m) as [issue|]; cbn [rbind]; [|discriminate].
  destruct (is_open issue); cbn [rbind]; [|discriminate].
  intros [= <-]. apply only_marks_added_add_marker.
Qed.

(** X20: the loop of [pytest_collection_modifyitems] puts every item, with
    its [skipif] mark added, in exactly one of the two lists, in the order of
    the collection: [selected] holds those for which the filter test holds,
    [deselected] those for which it fails. *)
Theorem modify_items_partition bz jr items : forall selected deselected,
  modify_items h is_open bz jr items = Ok (selected, deselected) ->
  exists marked,
    Forall2 (fun it it' => add_skipif h is_open it = Ok it') items marked /\
    marked ≡ₚ selected ++ deselected /\
    selected `sublist_of` marked /\ deselected `sublist_of` marked /\
    Forall (fun it => is_selected bz jr it = Ok true) selected /\
    Forall (fun it => is_selected bz jr it = Ok false) deselected.
Proof.
  induction items as [|it items IH]; cbn [modify_items]; intros selected deselected.
  - intros [= <- <-]. exists []. repeat split; constructor.
  - destruct (add_skipif h is_open it) as [it'|] eqn:Ha; cbn [rbind]; [|discriminate].
    destruct (is_selected bz jr it') as [keep|] eqn:Hk; cbn [rbind]; [|discriminate].
    destruct (modify_items h is_open bz jr items) as [[sel desel]|]; cbn [rbind];
      [|discriminate].
    destruct (IH sel desel eq_refl) as (marked & HF & Hp & Hs & Hd & Hsel & Hdes).
    destruct keep; intros [= <- <-]; exists (it' :: marked).
    + split; [constructor; auto|].
      split; [cbn; now constructor|].
      split; [now apply sublist_skip|].
      split; [now apply sublist_cons|].
      split; [constructor; auto | exact Hdes].
    + split; [constructor; auto|].
      split; [rewrite Hp; apply Permutation_middle|].
      split; [now apply sublist_cons|].
      split; [now apply sublist_skip|].
      split; [exact Hsel | constructor; auto].
Qed.

Lemma modify_items_no_filter bz jr items : forall selected deselected,
  filter_truthy bz = false -> filter_truthy jr = false ->
  modify_items h is_open bz jr items = Ok (selected, deselected) ->
  deselected = [] /\ Forall2 only_marks_added items selected.
Proof.
  intros selected deselected Hb Hj.
  revert selected deselected.
  induction items as [|it items IH]; cbn [modify_items]; intros selected deselected.
  - intros [= <- <-]. split; constructor.
  - destruct (add_skipif h is_open it) as [it'|] eqn:Ha; cbn [rbind]; [|discriminate].
    rewrite is_selected_no_filter by assumption. cbn [rbind].
    destruct (modify_items h is_open bz jr items) as [[sel desel]|]; cbn [rbind];
      [|discriminate].
    destruct (IH sel desel eq_refl) as [-> HF].
    intros [= <- <-]. split; [reflexivity|]. constructor; [|exact HF].
    now apply add_skipif_only_adds.
Qed.

Lemma no_filter_falsy option : no_filter option -> filter_truthy (read_filter option) = false.
Proof. intros [-> | ->]; reflexivity. Qed.

(** X22: with neither [--BZ] nor [--JR] given (or given empty), a run of the
    hook that returns deselects nothing: every item stays, in order, with
    marks added only. *)
Theorem hook_without_filters_keeps_every_test BZ JR items selected deselected :
  no_filter BZ -> no_filter JR ->
  pytest_collection_modifyitems h is_open should_deselect collect_data slugify_component
    BZ JR items = Ok (selected, deselected) ->
  deselected = [] /\ Forall2 only_marks_added items selected.
Proof.
  intros Hb Hj. unfold pytest_collection_modifyitems.
  destruct (generate_issue_collection _ _ _ _ items) as [[items' keys]|] eqn:Hg;
    cbn [rbind]; [|discriminate].
  intros Hm.
  apply modify_items_no_filter in Hm as [-> HF]; try now apply no_filter_falsy.
  split; [reflexivity|].
  eapply Forall2_only_marks_added_trans; [|exact HF].
  unfold generate_issue_collection in Hg.
  destruct (collect_items _ _ items) as [scanned|] eqn:Hs; cbn [rbind] in Hg;
    [|discriminate].
  destruct (collect_data _); cbn [rbind] in Hg; [|discriminate].
  destruct (mark_deselected _ _ _ _) as [marked|] eqn:Hd; cbn [rbind] in Hg;
    [|discriminate].
  injection Hg as <- _.
  eapply Forall2_only_marks_added_trans;
    [eapply collect_items_only_adds | eapply mark_deselected_only_adds]; eauto.
Qed.


End Hook.

(** *** Both filters given *)

Section Both.
Variable h : store.
Variable is_open : value -> result value.

Lemma set_of_args_returns l l' : set_of_args l = Ok l' -> l' = l.
Proof. unfold set_of_args. destruct (forallb hashable l); [now intros [= <-] | discriminate]. Qed.

Lemma is_selected_both_filters_returns n ns n' ns' it keep :
  is_selected (Numbers (n :: ns)) (Numbers (n' :: ns')) it = Ok keep ->
  keep = matches_filters (n :: ns) (n' :: ns') it.
Proof.
  intros H.
  destruct (set_of_args (closest_args it "BZ")) as [bz|] eqn:Hb;
    [|unfold is_selected in H; cbn [filter_truthy orb] in H; rewrite Hb in H; discriminate H].
  destruct (set_of_args (closest_args it "JR")) as [jr|] eqn:Hj;
    [|unfold is_selected in H; cbn [filter_truthy orb] in H; rewrite Hb, Hj in H;
      discriminate H].
  rewrite (is_selected_both_filters n ns n' ns' it bz jr Hb Hj) in H.
  injection H as <-. apply set_of_args_returns in Hb as ->.
  apply set_of_args_returns in Hj as ->. reflexivity.
Qed.

(** X8: with both filters given, the selected items are exactly those, in
    order, whose closest [BZ] mark meets the [--BZ] list or whose closest [JR]
    mark meets the [--JR] list, and the deselected ones are the others. *)
Theorem modify_items_both_filters n ns n' ns' items : forall selected deselected,
  modify_items h is_open (Numbers (n :: ns)) (Numbers (n' :: ns')) items
  = Ok (selected, deselected) ->
  exists marked,
    Forall2 (fun it it' => add_skipif h is_open it = Ok it') items marked /\
    selected = List.filter (matches_filters (n :: ns) (n' :: ns')) marked /\
    deselected = List.filter (fun it => negb (matches_filters (n :: ns) (n' :: ns') it)) marked.
Proof.
  induction items as [|it items IH]; cbn [modify_items]; intros selected deselected.
  - intros [= <- <-]. exists []. repeat split; constructor.
  - destruct (add_skipif h is_open it) as [it'|] eqn:Ha; cbn [rbind]; [|discriminate].
    destruct (is_selected _ _ it') as [keep|] eqn:Hk; cbn [rbind]; [|discriminate].
    apply is_selected_both_filters_returns in Hk.
    destruct (modify_items h is_open _ _ items) as [[sel desel]|]; cbn [rbind];
      [|discriminate].
    destruct (IH sel desel eq_refl) as (marked & HF & -> & ->).
    intros H. exists (it' :: marked). split; [constructor; auto|].
    cbn [List.filter]. rewrite <- Hk. destruct keep; injection H as <- <-; auto.
Qed.
End Both.

Lemma modify_items_both_filters_witness :
  exists marked,
    Forall2 (fun it it' => add_skipif ∅ never_open it = Ok it')
      [add_marker (api_test "test_a" "123456") (Mark "BZ" [VStr "123456"] []);
       with_issue_marks api_test_skip_if_open "SAT-20548"] marked /\
    [add_marker (with_issue_marks api_test_skip_if_open "SAT-20548")
       (Mark "skipif" [VBool false] [("reason", VStr "JR:SAT-20548")])]
    = List.filter (matches_filters ["654321"] ["SAT-20548"]) marked /\
    [add_marker (api_test "test_a" "123456") (Mark "BZ" [VStr "123456"] [])]
    = List.filter (fun it => negb (matches_filters ["654321"] ["SAT-20548"] it)) marked.
Proof.
  apply (modify_items_both_filters ∅ never_open "654321" [] "SAT-20548" []
           [add_marker (api_test "test_a" "123456") (Mark "BZ" [VStr "123456"] []);
            with_issue_marks api_test_skip_if_open "SAT-20548"]).
  reflexivity.
Defined.

(** *** Instances of the facts about the items *)

Lemma generate_issue_collection_only_adds_marks_witness :
  Forall2 only_marks_added
    [api_test_skip_if_open; api_test_skip_reason]
    [with_issue_marks api_test_skip_if_open "SAT-20548";
     with_issue_marks api_test_skip_reason "not ready"].
Proof.
  apply (generate_issue_collection_only_adds_marks ∅ never_deselect collect_nothing slug_any
           [api_test_skip_if_open; api_test_skip_reason]
           [with_issue_marks api_test_skip_if_open "SAT-20548";
            with_issue_marks api_test_skip_reason "not ready"]
           ["JR:SAT-20548"; "not ready"]).
  reflexivity.
Defined.

Lemma modify_items_partition_witness :
  exists marked,
    Forall2 (fun it it' => add_skipif ∅ never_open it = Ok it')
      [add_marker (api_test "test_a" "123456") (Mark "BZ" [VStr "123456"] []);
       with_issue_marks api_test_skip_if_open "SAT-20548"] marked /\
    marked ≡ₚ
      [add_marker (with_issue_marks api_test_skip_if_open "SAT-20548")
         (Mark "skipif" [VBool false] [("reason", VStr "JR:SAT-20548")])]
      ++ [add_marker (api_test "test_a" "123456") (Mark "BZ" [VStr "123456"] [])] /\
    [add_marker (with_issue_marks api_test_skip_if_open "SAT-20548")
       (Mark "skipif" [VBool false] [("reason", VStr "JR:SAT-20548")])]
      `sublist_of` marked /\
    [add_marker (api_test "test_a" "123456") (Mark "BZ" [VStr "123456"] [])]
      `sublist_of` marked /\
    Forall (fun it => is_selected (Numbers ["654321"]) (Numbers ["SAT-20548"]) it = Ok true)
      [add_marker (with_issue_marks api_test_skip_if_open "SAT-20548")
         (Mark "skipif" [VBool false] [("reason", VStr "JR:SAT-20548")])] /\
    Forall (fun it => is_selected (Numbers ["654321"]) (Numbers ["SAT-20548"]) it = Ok false)
      [add_marker (api_test "test_a" "123456") (Mark "BZ" [VStr "123456"] [])].
Proof.
  apply (modify_items_partition ∅ never_open (Numbers ["654321"]) (Numbers ["SAT-20548"])
           [add_marker (api_test "test_a" "123456") (Mark "BZ" [VStr "123456"] []);
            with_issue_marks api_test_skip_if_open "SAT-20548"]).
  reflexivity.
Defined.

Lemma hook_without_filters_keeps_every_test_witness :
  @nil item = [] /\
  Forall2 only_marks_added
    [api_test "test_a" "123456"; api_test_skip_if_open]
    [add_marker (api_test "test_a" "123456") (Mark "BZ" [VStr "123456"] []);
     add_marker (with_issue_marks api_test_skip_if_open "SAT-20548")
       (Mark "skipif" [VBool false] [("reason", VStr "JR:SAT-20548")])].
Proof.
  apply (hook_without_filters_keeps_every_test ∅ never_open never_deselect collect_nothing
           slug_any None (Some "") [api_test "test_a" "123456"; api_test_skip_if_open]);
    [left; reflexivity | right; reflexivity | reflexivity].
Defined.


End PluginFacts.

(** ** The cache, from one run to the next *)
Module CacheFacts.
Import Py.

Section Files.
Variable document : Type.
Variable index : Type.
Variable cached : Type.
Variable restore : document -> cached.
Variable dump : index -> document.

(** X9: with [--jr-cache] and no cache file, nothing is loaded and the index
    is written to jr_cache.json; the next run loads what was written, and
    writes nothing. *)
Theorem cache_written_then_loaded use_bz_cache collected_data collected_data' fs :
  Plugin.bz_cache_file document fs = None ->
  Plugin.jr_cache_file document fs = None ->
  Plugin.load_cached_data document cached restore use_bz_cache true fs = None /\
  Plugin.load_cached_data document cached restore use_bz_cache true
    (Plugin.write_cache_files document index cached dump use_bz_cache true None
       collected_data fs)
  = Some (restore (dump collected_data)) /\
  Plugin.write_cache_files document index cached dump use_bz_cache true
    (Some (restore (dump collected_data))) collected_data'
    (Plugin.write_cache_files document index cached dump use_bz_cache true None
       collected_data fs)
  = Plugin.write_cache_files document index cached dump use_bz_cache true None
      collected_data fs.
Proof.
  intros Hbz Hjr. unfold Plugin.load_cached_data, Plugin.write_cache_files.
  rewrite Hbz, Hjr. destruct use_bz_cache; cbn; repeat split.
Qed.

(** X24: what a run leaves of the two cache files, whatever the options: a
    file that exists is never overwritten; bz_cache.json is created under
    [--bz-cache] unless an existing jr_cache.json was loaded under
    [--jr-cache]; jr_cache.json is created under [--jr-cache] only when
    bz_cache.json does not exist either. *)
Theorem write_cache_files_after_load use_bz_cache use_jr_cache collected_data fs :
  Plugin.write_cache_files document index cached dump use_bz_cache use_jr_cache
    (Plugin.load_cached_data document cached restore use_bz_cache use_jr_cache fs)
    collected_data fs
  = Plugin.Files document
      (match Plugin.bz_cache_file document fs with
       | Some doc => Some doc
       | None =>
           if use_bz_cache
              && negb (use_jr_cache
                       && bool_decide (is_Some (Plugin.jr_cache_file document fs)))
           then Some (dump collected_data) else None
       end)
      (match Plugin.jr_cache_file document fs with
       | Some doc => Some doc
       | None =>
           if use_jr_cache
              && negb (bool_decide (is_Some (Plugin.bz_cache_file document fs)))
           then Some (dump collected_data) else None
       end).
Proof.
  destruct fs as [[b|] [j|]], use_bz_cache, use_jr_cache; reflexivity.
Qed.

End Files.

Lemma cache_written_then_loaded_witness :
  Plugin.load_cached_data nat nat (fun doc : nat => S doc) false true (Plugin.Files nat None None)
  = None /\
  Plugin.load_cached_data nat nat (fun doc : nat => S doc) false true
    (Plugin.write_cache_files nat nat nat (fun i : nat => i) false true None 5
       (Plugin.Files nat None None))
  = Some 6 /\
  Plugin.write_cache_files nat nat nat (fun i : nat => i) false true (Some 6) 7
    (Plugin.write_cache_files nat nat nat (fun i : nat => i) false true None 5
       (Plugin.Files nat None None))
  = Plugin.write_cache_files nat nat nat (fun i : nat => i) false true None 5
      (Plugin.Files nat None None).
Proof.
  apply (cache_written_then_loaded nat nat nat (fun doc : nat => S doc) (fun i : nat => i)
           false 5 7 (Plugin.Files nat None None)); reflexivity.
Defined.

(** C8 (a defect of the code): a first run over a test under
    [skip_if_open("JR:SAT-20548")] and one under [skip(reason="not ready")]
    files both keys in the index it writes, the second without a record;
    resolving from that cache in the next run raises [KeyError] at the entry
    without a record, no request sent, and reproduces nothing. *)
Theorem cached_run_raises_KeyError :
  (exists items,
     Plugin.generate_issue_collection ∅ Plugin.never_deselect Plugin.collect_nothing
       Plugin.slug_any [Plugin.api_test_skip_if_open; Plugin.api_test_skip_reason]
     = Ok (items, ["JR:SAT-20548"; "not ready"])) /\
  Jira.cache_lookup Jira.reloaded_cache "not ready" = Some (Some (VRef 2)) /\
  deref (Jira.heap Jira.reloaded_world) 2 = ∅ /\
  fst (Jira.collect_data_jr [6%N; 11%N] true Jira.no_tracker 1000 Jira.second_run
         (Some Jira.reloaded_cache) Jira.reloaded_world) = Raise KeyError /\
  Jira.requests_sent
    (snd (Jira.collect_data_jr [6%N; 11%N] true Jira.no_tracker 1000 Jira.second_run
            (Some Jira.reloaded_cache) Jira.reloaded_world)) = 0.
Proof.
  split; [eexists; reflexivity|]. repeat split.
Qed.

End CacheFacts.
